(** * Validador de bandeiras de cartão de crédito

    A shallow embedding of [validador_cartao_credito.py] (class
    [ValidadorCartaoCredito]) and the properties of its normalizer, Luhn
    checksum, brand classifier, orchestrator and formatter.

    Modelling conventions.
    - A Python [str] is a [string]; a character is an [ascii], read as a
      code point below 256.  Every method starts by deleting all characters
      outside [0-9], so nothing of the behaviour depends on code points
      above that range.
    - A Python [int] is a [Z]; [len] yields a [nat].
    - A method that can raise returns a [result]: [Ok v] for a normal
      return, [Raise e] for an exception.
    - [re.match] is modelled by a backtracking matcher over a regular
      expression syntax tree; the patterns of [padroes_bandeiras] are
      transcribed into that syntax one construct at a time. *)

From Stdlib Require Import ZArith Lia Bool Ascii String.
From stdpp Require Import base list strings.

Local Open Scope string_scope.

(* ================================================================== *)
(** ** Exceptions and the result monad *)

Inductive exn : Type :=
| ValueError
| IndexError
| KeyError.

Inductive result (A : Type) : Type :=
| Ok (a : A)
| Raise (e : exn).
Arguments Ok {A} a.
Arguments Raise {A} e.

#[global] Instance result_ret : MRet result := fun _ a => Ok a.
#[global] Instance result_bind : MBind result := fun _ _ f m =>
  match m with
  | Ok a => f a
  | Raise e => Raise e
  end.

(** [[f(x) for x in xs]] where [f] may raise. *)
Fixpoint comprehension {A B} (f : A -> result B) (xs : list A) : result (list B) :=
  match xs with
  | [] => Ok []
  | x :: xs' => y ← f x; ys ← comprehension f xs'; Ok (y :: ys)
  end.

(** [for i in idxs: st = body(i, st)] where the body may raise. *)
Fixpoint for_each {S} (idxs : list nat) (body : nat -> S -> result S) (st : S)
  : result S :=
  match idxs with
  | [] => Ok st
  | i :: idxs' => st' ← body i st; for_each idxs' body st'
  end.

(* ================================================================== *)
(** ** Characters and strings *)

Definition in_range (lo hi c : ascii) : bool :=
  Ascii.leb lo c && Ascii.leb c hi.

(** The ASCII decimal digits, the class [[0-9]]. *)
Definition is_digit (c : ascii) : bool := in_range "0" "9" c.

(** [c.isdigit()] for a code point below 256: the ASCII digits and the
    superscripts U+00B2, U+00B3 and U+00B9. *)
Definition chr_isdigit (c : ascii) : bool :=
  is_digit c
  || Ascii.eqb c (ascii_of_nat 178)
  || Ascii.eqb c (ascii_of_nat 179)
  || Ascii.eqb c (ascii_of_nat 185).

Fixpoint str_forallb (p : ascii -> bool) (s : string) : bool :=
  match s with
  | EmptyString => true
  | String c s' => p c && str_forallb p s'
  end.

(** [s.isdigit()]: at least one character, and all of them digits. *)
Definition str_isdigit (s : string) : bool :=
  match s with
  | EmptyString => false
  | _ => str_forallb chr_isdigit s
  end.

(** [int(d)] for a one-character string [d]. *)
Definition int_of_char (c : ascii) : result Z :=
  if is_digit c then Ok (Z.of_N (N_of_ascii c) - 48)%Z else Raise ValueError.

(** [len(s)] *)
Definition len (s : string) : nat := String.length s.

(** Slices with non-negative bounds: [s[:n]], [s[n:]] and [s[a:b]].  Python
    clamps the bounds to the length of the string. *)
Fixpoint str_take (n : nat) (s : string) : string :=
  match n, s with
  | S n', String c s' => String c (str_take n' s')
  | _, _ => EmptyString
  end.

Fixpoint str_drop (n : nat) (s : string) : string :=
  match n, s with
  | S n', String _ s' => str_drop n' s'
  | _, _ => s
  end.

Definition slice (a b : nat) (s : string) : string :=
  str_take (b - a) (str_drop a s).

(** The characters of a string, in order. *)
Fixpoint chars (s : string) : list ascii :=
  match s with
  | EmptyString => []
  | String c s' => c :: chars s'
  end.

(* ================================================================== *)
(** ** Regular expressions *)

(** The constructs used by the patterns of the program. *)
Inductive regex : Type :=
| Eps                                  (* the empty pattern *)
| Chr (c : ascii)                      (* a literal character *)
| Cls (rs : list (ascii * ascii))      (* [a-bc-d] *)
| NCls (rs : list (ascii * ascii))     (* [^a-bc-d] *)
| Dig                                  (* \d *)
| Bol                                  (* ^ *)
| Eol                                  (* $ *)
| Cat (r1 r2 : regex)                  (* r1 r2 *)
| Alt (r1 r2 : regex).                 (* r1|r2 *)

Definition in_class (rs : list (ascii * ascii)) (c : ascii) : bool :=
  existsb (fun r => in_range (fst r) (snd r) c) rs.

(** [$] matches at the end of the string and before a final newline. *)
Definition at_eol (s : string) : bool :=
  match s with
  | EmptyString => true
  | String c EmptyString => Ascii.eqb c (ascii_of_nat 10)
  | _ => false
  end.

(** [rmatch r pos s k]: can [r] match a prefix of [s], the rest of the
    subject starting at offset [pos], so that the continuation [k] accepts
    what is left?  All alternatives are explored, as the backtracking
    engine of [re] does. *)
Fixpoint rmatch (r : regex) (pos : nat) (s : string)
    (k : nat -> string -> bool) : bool :=
  match r with
  | Eps => k pos s
  | Chr c =>
      match s with
      | String a s' => Ascii.eqb a c && k (S pos) s'
      | EmptyString => false
      end
  | Cls rs =>
      match s with
      | String a s' => in_class rs a && k (S pos) s'
      | EmptyString => false
      end
  | NCls rs =>
      match s with
      | String a s' => negb (in_class rs a) && k (S pos) s'
      | EmptyString => false
      end
  | Dig =>
      match s with
      | String a s' => is_digit a && k (S pos) s'
      | EmptyString => false
      end
  | Bol => Nat.eqb pos 0 && k pos s
  | Eol => at_eol s && k pos s
  | Cat r1 r2 => rmatch r1 pos s (fun pos' s' => rmatch r2 pos' s' k)
  | Alt r1 r2 => rmatch r1 pos s k || rmatch r2 pos s k
  end.

(** [re.match(pattern, s)] as a truth value: a match anchored at offset 0
    that may stop anywhere. *)
Definition re_match (pattern : regex) (s : string) : bool :=
  rmatch pattern 0 s (fun _ _ => true).

(** Derived forms. *)
Fixpoint lit (s : string) : regex :=
  match s with
  | EmptyString => Eps
  | String c EmptyString => Chr c
  | String c s' => Cat (Chr c) (lit s')
  end.

Fixpoint cats (rs : list regex) : regex :=
  match rs with
  | [] => Eps
  | [r] => r
  | r :: rs' => Cat r (cats rs')
  end.

Fixpoint alts (rs : list regex) : regex :=
  match rs with
  | [] => Eps
  | [r] => r
  | r :: rs' => Alt r (alts rs')
  end.

(** [r{n}] *)
Fixpoint times (n : nat) (r : regex) : regex :=
  match n with
  | O => Eps
  | S n' => Cat r (times n' r)
  end.

(** [r{0,n}] *)
Fixpoint upto (n : nat) (r : regex) : regex :=
  match n with
  | O => Eps
  | S n' => Alt (Cat r (upto n' r)) Eps
  end.

(** [r{lo,hi}] and [r?] *)
Definition rep (lo hi : nat) (r : regex) : regex :=
  Cat (times lo r) (upto (hi - lo) r).
Definition opt (r : regex) : regex := upto 1 r.

(** [[a-b]] and [[abc]] *)
Definition rng (a b : ascii) : regex := Cls [(a, b)].
Definition one_of (s : string) : regex := Cls (map (fun c => (c, c)) (chars s)).

(** [re.sub(p, repl, s)] for a pattern [p] that is one character class:
    every character of the class is replaced by [repl], the others are
    kept. *)
Fixpoint re_sub_class (cls : ascii -> bool) (repl s : string) : string :=
  match s with
  | EmptyString => EmptyString
  | String c s' =>
      if cls c then repl +:+ re_sub_class cls repl s'
      else String c (re_sub_class cls repl s')
  end.

(* ================================================================== *)
(** ** The tables of [__init__] *)

Module Padroes.

Definition d09 : regex := rng "0" "9".

(** [^4[0-9]{12}(?:[0-9]{3})?$] *)
Definition visa : regex :=
  cats [Bol; Chr "4"; times 12 d09; opt (times 3 d09); Eol].

(** [^5[1-5][0-9]{14}$|^2[2-7][0-9]{14}$] *)
Definition mastercard : regex :=
  Alt (cats [Bol; Chr "5"; rng "1" "5"; times 14 d09; Eol])
      (cats [Bol; Chr "2"; rng "2" "7"; times 14 d09; Eol]).

(** [^3[47][0-9]{13}$] *)
Definition amex : regex :=
  cats [Bol; Chr "3"; one_of "47"; times 13 d09; Eol].

(** The nine alternatives of the Elo pattern, in source order. *)
Definition elo_4011 : regex := cats [lit "4011"; alts [lit "78"; lit "79"]].
Definition elo_43 : regex := cats [lit "43"; alts [lit "1274"; lit "8935"]].
Definition elo_45 : regex :=
  cats [lit "45"; alts [lit "1416"; lit "7393"; cats [lit "763"; one_of "12"]]].
Definition elo_50a : regex :=
  cats [lit "50";
        alts [lit "4175";
              lit "6699";
              cats [lit "67"; rng "0" "6"; d09];
              cats [lit "677"; rng "0" "8"];
              cats [Chr "9"; rng "0" "8"; times 2 d09];
              cats [lit "99"; rng "0" "8"; d09];
              cats [lit "999"; d09]]].
Definition elo_627780 : regex := lit "627780".
Definition elo_63 : regex :=
  cats [lit "63"; alts [lit "6297"; lit "6368"; lit "6369"]].
Definition elo_65 : regex :=
  cats [lit "65";
        alts [cats [Chr "0";
                    alts [cats [Chr "0"; alts [cats [Chr "3"; rng "1" "3"]; rng "5" "9"]];
                          cats [Chr "4"; d09];
                          cats [Chr "5"; rng "0" "1"]]];
              cats [Chr "4";
                    alts [cats [Chr "0"; rng "5" "9"];
                          cats [rng "1" "3"; d09];
                          cats [Chr "8"; rng "5" "9"];
                          cats [Chr "9"; d09]]];
              cats [Chr "5";
                    alts [cats [rng "0" "2"; d09];
                          cats [Chr "3"; rng "0" "8"];
                          cats [Chr "4"; rng "1" "9"];
                          cats [rng "5" "8"; d09];
                          cats [Chr "9"; rng "0" "8"]]];
              cats [Chr "7";
                    alts [cats [Chr "0"; d09];
                          cats [Chr "1"; rng "0" "8"];
                          cats [Chr "2"; rng "0" "7"]]];
              cats [Chr "9";
                    alts [cats [Chr "0"; rng "1" "9"];
                          cats [rng "1" "6"; d09];
                          cats [Chr "7"; rng "0" "8"]]]]].
Definition elo_16 : regex :=
  cats [lit "16"; alts [cats [Chr "5"; rng "2" "9"]; cats [rng "6" "7"; d09]]].
Definition elo_50b : regex :=
  cats [lit "50";
        alts [cats [Chr "0"; d09];
              cats [Chr "1"; d09];
              cats [Chr "2"; rng "1" "9"];
              cats [rng "3" "4"; d09];
              cats [Chr "5"; rng "0" "8"]]].

(** [^(4011(78|79)|43(...)|45(...)|50(...)|627780|63(...)|65(...)|16(...)|50(...))$] *)
Definition elo : regex :=
  cats [Bol;
        alts [elo_4011; elo_43; elo_45; elo_50a; elo_627780; elo_63;
              elo_65; elo_16; elo_50b];
        Eol].

(** [^(606282\d{10}(\d{3})?|3841\d{15})$] *)
Definition hipercard : regex :=
  cats [Bol;
        alts [cats [lit "606282"; times 10 Dig; opt (times 3 Dig)];
              cats [lit "3841"; times 15 Dig]];
        Eol].

(** [^3(?:0[0-5]|[68][0-9])[0-9]{11}$] *)
Definition diners : regex :=
  cats [Bol; Chr "3";
        alts [cats [Chr "0"; rng "0" "5"]; cats [one_of "68"; d09]];
        times 11 d09; Eol].

(** [^6(?:011|5[0-9]{2})[0-9]{12}$] *)
Definition discover : regex :=
  cats [Bol; Chr "6";
        alts [lit "011"; cats [Chr "5"; times 2 d09]];
        times 12 d09; Eol].

(** [^(?:2131|1800|35\d{3})\d{11}$] *)
Definition jcb : regex :=
  cats [Bol;
        alts [lit "2131"; lit "1800"; cats [lit "35"; times 3 Dig]];
        times 11 Dig; Eol].

(** [^5078\d{2}\d{2}\d{11}$] *)
Definition aura : regex :=
  cats [Bol; lit "5078"; times 2 Dig; times 2 Dig; times 11 Dig; Eol].

(** [^(?:5[0678]\d\d|6304|6390|67\d\d)\d{8,15}$] *)
Definition maestro : regex :=
  cats [Bol;
        alts [cats [Chr "5"; one_of "0678"; Dig; Dig];
              lit "6304";
              lit "6390";
              cats [lit "67"; Dig; Dig]];
        rep 8 15 Dig; Eol].

End Padroes.

(** [self.padroes_bandeiras]: a dict, iterated in insertion order. *)
Definition padroes_bandeiras : list (string * regex) :=
  [ ("visa", Padroes.visa);
    ("mastercard", Padroes.mastercard);
    ("amex", Padroes.amex);
    ("elo", Padroes.elo);
    ("hipercard", Padroes.hipercard);
    ("diners", Padroes.diners);
    ("discover", Padroes.discover);
    ("jcb", Padroes.jcb);
    ("aura", Padroes.aura);
    ("maestro", Padroes.maestro) ].

(** [self.nomes_bandeiras] *)
Definition nomes_bandeiras : list (string * string) :=
  [ ("visa", "Visa");
    ("mastercard", "Mastercard");
    ("amex", "American Express");
    ("elo", "Elo");
    ("hipercard", "Hipercard");
    ("diners", "Diners Club");
    ("discover", "Discover");
    ("jcb", "JCB");
    ("aura", "Aura");
    ("maestro", "Maestro") ].

(** [d[key]] on a dict with string keys; a missing key raises [KeyError]. *)
Fixpoint dict_get {V} (d : list (string * V)) (key : string) : result V :=
  match d with
  | [] => Raise KeyError
  | (k, v) :: d' => if String.eqb k key then Ok v else dict_get d' key
  end.

(* ================================================================== *)
(** ** The methods of [ValidadorCartaoCredito] *)

(** [limpar_numero]: [re.sub(r'[^0-9]', '', str(numero))] *)
Definition limpar_numero (numero : string) : string :=
  re_sub_class (fun c => negb (in_class [("0", "9")%char] c)) "" numero.

(** [digitos.pop()]: the list without its last element, and that element. *)
Definition list_pop {A} (l : list A) : result (list A * A) :=
  match last l with
  | Some x => Ok (removelast l, x)
  | None => Raise IndexError
  end.

(** [range(start, stop, step)] for a positive step. *)
Definition py_range (start stop step : nat) : list nat :=
  map (fun k => start + k * step) (seq 0 ((stop - start + (step - 1)) / step)).

(** The body of the loop of [validar_luhn]:
    [digitos[i] *= 2; if digitos[i] > 9: digitos[i] -= 9]. *)
Definition dobrar (i : nat) (digitos : list Z) : result (list Z) :=
  match digitos !! i with
  | None => Raise IndexError
  | Some d =>
      let digitos1 := <[i := (d * 2)%Z]> digitos in
      match digitos1 !! i with
      | None => Raise IndexError
      | Some d2 =>
          if (d2 >? 9)%Z then Ok (<[i := (d2 - 9)%Z]> digitos1)
          else Ok digitos1
      end
  end.

Definition sum (l : list Z) : Z := foldl Z.add 0%Z l.

Definition validar_luhn (numero : string) : result bool :=
  let numero := limpar_numero numero in
  if negb (str_isdigit numero) then Ok false
  else
    digitos ← comprehension int_of_char (chars numero);
    '(digitos, check_digit) ← list_pop digitos;
    let digitos := reverse digitos in
    digitos ← for_each (py_range 0 (length digitos) 2) dobrar digitos;
    let digitos := (digitos ++ [check_digit])%list in
    let soma_total := sum digitos in
    Ok (soma_total mod 10 =? 0)%Z.

(** The loop of [identificar_bandeira] over the items of the pattern dict. *)
Fixpoint primeira_bandeira (items : list (string * regex)) (numero : string)
  : result (option string) :=
  match items with
  | [] => Ok None
  | (bandeira, padrao) :: items' =>
      if re_match padrao numero
      then nome ← dict_get nomes_bandeiras bandeira; Ok (Some nome)
      else primeira_bandeira items' numero
  end.

Definition identificar_bandeira (numero : string) : result (option string) :=
  let numero := limpar_numero numero in
  primeira_bandeira padroes_bandeiras numero.

(** The dict built by [validar_cartao]. *)
Record resultado : Type := {
  numero_original : string;
  numero_limpo : string;
  valido_luhn : bool;
  bandeira : option string;
  valido_completo : bool;
  comprimento : nat;
  mensagem : string
}.

Definition set_mensagem (m : string) (r : resultado) : resultado :=
  {| numero_original := numero_original r; numero_limpo := numero_limpo r;
     valido_luhn := valido_luhn r; bandeira := bandeira r;
     valido_completo := valido_completo r; comprimento := comprimento r;
     mensagem := m |}.

Definition set_valido_luhn (b : bool) (r : resultado) : resultado :=
  {| numero_original := numero_original r; numero_limpo := numero_limpo r;
     valido_luhn := b; bandeira := bandeira r;
     valido_completo := valido_completo r; comprimento := comprimento r;
     mensagem := mensagem r |}.

Definition set_bandeira (b : option string) (r : resultado) : resultado :=
  {| numero_original := numero_original r; numero_limpo := numero_limpo r;
     valido_luhn := valido_luhn r; bandeira := b;
     valido_completo := valido_completo r; comprimento := comprimento r;
     mensagem := mensagem r |}.

Definition set_valido_completo (b : bool) (r : resultado) : resultado :=
  {| numero_original := numero_original r; numero_limpo := numero_limpo r;
     valido_luhn := valido_luhn r; bandeira := bandeira r;
     valido_completo := b; comprimento := comprimento r;
     mensagem := mensagem r |}.

Definition is_not_None {A} (o : option A) : bool :=
  match o with Some _ => true | None => false end.

Definition is_None {A} (o : option A) : bool := negb (is_not_None o).

(** The text a brand is rendered with inside an f-string. *)
Definition fmt_bandeira (o : option string) : string :=
  match o with Some b => b | None => "None" end.

Definition msg_caracteres_invalidos : string :=
  "Número contém caracteres inválidos".
Definition msg_comprimento_invalido : string :=
  "Comprimento inválido (deve ter entre 13 e 19 dígitos)".
Definition msg_sem_bandeira : string :=
  "Número válido pelo algoritmo Luhn, mas bandeira não identificada".
Definition msg_numero_invalido : string := "Número inválido".
Definition msg_valido (b : option string) : string :=
  "Cartão válido - Bandeira: " +:+ fmt_bandeira b.
Definition msg_luhn_invalido (b : option string) : string :=
  "Bandeira identificada (" +:+ fmt_bandeira b
    +:+ "), mas número inválido pelo algoritmo Luhn".

Definition validar_cartao (numero : string) : result resultado :=
  let numero_limpo := limpar_numero numero in
  let resultado :=
    {| numero_original := numero;
       numero_limpo := numero_limpo;
       valido_luhn := false;
       bandeira := None;
       valido_completo := false;
       comprimento := len numero_limpo;
       mensagem := "" |} in
  if negb (str_isdigit numero_limpo) then
    Ok (set_mensagem msg_caracteres_invalidos resultado)
  else if (len numero_limpo <? 13)%nat || (19 <? len numero_limpo)%nat then
    Ok (set_mensagem msg_comprimento_invalido resultado)
  else
    luhn ← validar_luhn numero_limpo;
    let resultado := set_valido_luhn luhn resultado in
    marca ← identificar_bandeira numero_limpo;
    let resultado := set_bandeira marca resultado in
    let resultado :=
      set_valido_completo
        (valido_luhn resultado && is_not_None (bandeira resultado)) resultado in
    if valido_completo resultado then
      Ok (set_mensagem (msg_valido (bandeira resultado)) resultado)
    else if valido_luhn resultado && is_None (bandeira resultado) then
      Ok (set_mensagem msg_sem_bandeira resultado)
    else if negb (valido_luhn resultado) && is_not_None (bandeira resultado) then
      Ok (set_mensagem (msg_luhn_invalido (bandeira resultado)) resultado)
    else
      Ok (set_mensagem msg_numero_invalido resultado).

(** [not bandeira] for an optional string: [None] and [''] are falsy. *)
Definition falsy (o : option string) : bool :=
  match o with
  | None => true
  | Some EmptyString => true
  | Some _ => false
  end.

Definition option_string_eqb (o : option string) (s : string) : bool :=
  match o with
  | Some b => String.eqb b s
  | None => false
  end.

Definition formatar_numero (numero : string) (bandeira : option string)
  : result string :=
  let numero := limpar_numero numero in
  bandeira ← (if falsy bandeira then identificar_bandeira numero else Ok bandeira);
  if option_string_eqb bandeira "American Express" then
    if (len numero =? 15)%nat then
      Ok (str_take 4 numero +:+ "-" +:+ slice 4 10 numero +:+ "-" +:+ str_drop 10 numero)
    else Ok numero
  else if option_string_eqb bandeira "Diners Club" then
    if (len numero =? 14)%nat then
      Ok (str_take 4 numero +:+ "-" +:+ slice 4 10 numero +:+ "-" +:+ str_drop 10 numero)
    else Ok numero
  else
    if (len numero =? 16)%nat then
      Ok (str_take 4 numero +:+ "-" +:+ slice 4 8 numero +:+ "-"
            +:+ slice 8 12 numero +:+ "-" +:+ str_drop 12 numero)
    else Ok numero.

(* ================================================================== *)
(** ** Operations used to state the properties *)

(** The character at position [i], and the string with the character at
    position [i] replaced. *)
Fixpoint str_get (i : nat) (s : string) : option ascii :=
  match s, i with
  | EmptyString, _ => None
  | String c _, O => Some c
  | String _ s', S i' => str_get i' s'
  end.

Fixpoint str_set (i : nat) (c : ascii) (s : string) : string :=
  match s, i with
  | EmptyString, _ => EmptyString
  | String _ s', O => String c s'
  | String a s', S i' => String a (str_set i' c s')
  end.

(** [needle in s] *)
Fixpoint str_contains (needle s : string) : bool :=
  String.prefix needle s
  || match s with
     | EmptyString => false
     | String _ s' => str_contains needle s'
     end.

(** The string without its hyphens. *)
Definition sem_hifens (s : string) : string :=
  re_sub_class (fun c => Ascii.eqb c "-") "" s.

(** A string of ASCII decimal digits (possibly empty): a DigitString. *)
Definition so_digitos (s : string) : bool := str_forallb is_digit s.

(** The value of a decimal digit. *)
Definition digit_val (c : ascii) : Z := (Z.of_N (N_of_ascii c) - 48)%Z.

(** One doubling step of the Luhn sum. *)
Definition dbl (d : Z) : Z := if (d * 2 >? 9)%Z then (d * 2 - 9)%Z else (d * 2)%Z.

(** The digits with every second one doubled; [b] tells whether the head
    is doubled. *)
Fixpoint alt_from (b : bool) (l : list Z) : list Z :=
  match l with
  | [] => []
  | d :: l' => (if b then dbl d else d) :: alt_from (negb b) l'
  end.

(** Section 4.2 of the specification, step by step: the Luhn validity of a
    digit string as the specification words it. *)
Definition spec_isLuhnValid (digits : string) : bool :=
  (* 1. empty, or some character that is not a digit *)
  if String.eqb digits "" || negb (so_digitos digits) then false
  else
    (* 2. decimal values, left to right; the last one is the check digit *)
    let values := map digit_val (chars digits) in
    let n := length values in
    let check := nth (n - 1) values 0%Z in
    (* 3. the remaining n-1 digits, reversed *)
    let rest := rev (firstn (n - 1) values) in
    (* 4. double at even indices, minus 9 when the result exceeds 9 *)
    let stepped :=
      imap (fun i d => if Nat.even i
                       then (if (2 * d >? 9)%Z then (2 * d - 9)%Z else (2 * d)%Z)
                       else d) rest in
    (* 5. the sum of all of them plus the check digit *)
    let total := (fold_right Z.add 0 stepped + check)%Z in
    (* 6. divisible by 10 *)
    (total mod 10 =? 0)%Z.

(** The weighted digit sum the loop of [validar_luhn] arrives at, and the
    verdict on a list of digit values. *)
Definition luhn_total (ds : list Z) : Z := sum (alt_from false (reverse ds)).
Definition luhn_ok (ds : list Z) : bool := (luhn_total ds mod 10 =? 0)%Z.

(** The weight a digit enters the sum with. *)
Definition peso (b : bool) (d : Z) : Z := if b then dbl d else d.

(** The message of the full path, by checksum verdict and brand. *)
Definition mensagem_final (luhn : bool) (marca : option string) : string :=
  if luhn && is_not_None marca then msg_valido marca
  else if luhn && is_None marca then msg_sem_bandeira
  else if negb luhn && is_not_None marca then msg_luhn_invalido marca
  else msg_numero_invalido.

Definition veredito (numero : string) (luhn : bool) (marca : option string)
    (completo : bool) (msg : string) : resultado :=
  {| numero_original := numero;
     numero_limpo := limpar_numero numero;
     valido_luhn := luhn;
     bandeira := marca;
     valido_completo := completo;
     comprimento := len (limpar_numero numero);
     mensagem := msg |}.

(** The brand [formatar_numero] works with: the one given, or the one the
    classifier finds when none is given. *)
Definition marca_efetiva (numero : string) (bandeira : option string)
  : result (option string) :=
  if falsy bandeira then identificar_bandeira (limpar_numero numero)
  else Ok bandeira.

(** The number of digits each branch of [formatar_numero] asks for. *)
Definition comprimento_esperado (marca : option string) : nat :=
  if option_string_eqb marca "American Express" then 15
  else if option_string_eqb marca "Diners Club" then 14
  else 16.

(** The grouping each branch of [formatar_numero] writes. *)
Definition agrupado (marca : option string) (d : string) : string :=
  if option_string_eqb marca "American Express"
     || option_string_eqb marca "Diners Club"
  then str_take 4 d +:+ "-" +:+ slice 4 10 d +:+ "-" +:+ str_drop 10 d
  else str_take 4 d +:+ "-" +:+ slice 4 8 d +:+ "-" +:+ slice 8 12 d
         +:+ "-" +:+ str_drop 12 d.

(** What a pattern can consume.  Each pair is a number of characters a
    match of the pattern may cover, with a flag telling that the match ends
    on a [$] that was tested where the match stops. *)
Fixpoint alcance (r : regex) : list (nat * bool) :=
  match r with
  | Eps | Bol => [(0, false)]
  | Eol => [(0, true)]
  | Chr _ | Cls _ | NCls _ | Dig => [(1, false)]
  | Cat r1 r2 =>
      flat_map (fun a => map (fun b => (fst a + fst b,
                                        snd b || (snd a && (fst b =? 0)%nat)))
                             (alcance r2))
               (alcance r1)
  | Alt r1 r2 => (alcance r1 ++ alcance r2)%list
  end.

(** The digit counts each display name can come with: the lengths its
    pattern accepts. *)
Definition comprimentos_bandeiras : list (string * list nat) :=
  [ ("Visa", [13; 16]);
    ("Mastercard", [16]);
    ("American Express", [15]);
    ("Elo", [4; 5; 6]);
    ("Hipercard", [16; 19]);
    ("Diners Club", [14]);
    ("Discover", [16]);
    ("JCB", [15; 16]);
    ("Aura", [19]);
    ("Maestro", [12; 13; 14; 15; 16; 17; 18; 19]) ].

(** The digit counts of one brand, read from the table. *)
Ltac so_comprimento Hin Hl :=
  unfold comprimentos_bandeiras in Hin; cbn [In] in Hin;
  repeat (destruct Hin as [Hin|Hin];
          [try discriminate Hin; injection Hin as <-; cbn [In] in Hl|]);
  [..|contradiction].

(** Take a conjunction or disjunction of character tests apart, decide the
    tests on known characters, and forget what is said about the rest of
    the string. *)
Ltac quebra :=
  repeat match goal with
  | H : false = true |- _ => discriminate H
  | H : (_ && _) = true |- _ =>
      let A := fresh in let B := fresh in apply andb_prop in H as [A B]
  | H : (_ || _) = true |- _ => apply orb_prop in H as [H|H]
  | H : Ascii.eqb ?c _ = true |- _ =>
      apply Ascii.eqb_eq in H; first [subst c | discriminate H | clear H]
  | H : in_class _ (Ascii _ _ _ _ _ _ _ _) = true |- _ =>
      vm_compute in H; first [discriminate H | clear H]
  | H : match ?t with EmptyString => _ | String _ _ => _ end = true |- _ =>
      clear H
  end.

(** *** Tactics *)

(** Split a string of known length into its characters. *)
Ltac explode t H :=
  cbn [String.length] in H;
  lazymatch type of H with
  | String.length t = 0 => destruct t; [clear H|discriminate H]
  | String.length t = S _ =>
      let c := fresh "c" in
      destruct t as [|c t]; [discriminate H|];
      cbn [String.length] in H; apply Nat.succ_inj in H; explode t H
  end.

(** Turn [so_digitos] of an exploded string into one fact per character
    and rewrite with them. *)
Ltac use_digits H :=
  unfold so_digitos in H; cbn [str_forallb] in H;
  repeat (let Hc := fresh "Hc" in
          apply andb_prop in H as [Hc H]; rewrite ?Hc);
  clear H.

(* ================================================================== *)
(** ** The examples of [main] *)

Example limpar_numero_blanks :
  limpar_numero "4111 1111 1111 1111" = "4111111111111111".
Proof. reflexivity. Qed.

Example demo_mastercard :
  identificar_bandeira "5555555555554444" = Ok (Some "Mastercard")
  /\ validar_luhn "5555555555554444" = Ok true.
Proof. split; vm_compute; reflexivity. Qed.

Example demo_amex :
  identificar_bandeira "378282246310005" = Ok (Some "American Express")
  /\ validar_luhn "378282246310005" = Ok true
  /\ formatar_numero "378282246310005" None = Ok "3782-822463-10005".
Proof. repeat split; vm_compute; reflexivity. Qed.

Example demo_diners :
  identificar_bandeira "30569309025904" = Ok (Some "Diners Club")
  /\ formatar_numero "30569309025904" None = Ok "3056-930902-5904".
Proof. split; vm_compute; reflexivity. Qed.

Example demo_visa_check_digit :
  validar_luhn "4111 1111 1111 1112" = Ok false.
Proof. vm_compute; reflexivity. Qed.

Example demo_sem_bandeira :
  identificar_bandeira "1234567890123456" = Ok None
  /\ validar_luhn "1234567890123456" = Ok false.
Proof. split; vm_compute; reflexivity. Qed.

(* ================================================================== *)
(** ** Strings *)

Lemma str_app_cons (c : ascii) (a b : string) :
  String c a +:+ b = String c (a +:+ b).
Proof. reflexivity. Qed.

Lemma str_app_nil_l (a : string) : "" +:+ a = a.
Proof. reflexivity. Qed.

Lemma str_take_drop (n : nat) (s : string) : str_take n s +:+ str_drop n s = s.
Proof.
  revert s; induction n as [|n IH]; intros [|c s]; simpl; try reflexivity.
  now rewrite str_app_cons, IH.
Qed.

Lemma str_drop_drop (n m : nat) (s : string) :
  str_drop n (str_drop m s) = str_drop (m + n) s.
Proof.
  revert s; induction m as [|m IH]; intros s; simpl; [reflexivity|].
  destruct s as [|c s]; [now destruct n|]. apply IH.
Qed.

Lemma str_app_assoc (a b c : string) : (a +:+ b) +:+ c = a +:+ (b +:+ c).
Proof.
  induction a as [|x a IH]; [reflexivity|].
  now rewrite !str_app_cons, IH.
Qed.


(** [s[:a] + s[a:b] + s[b:]] puts the string together again. *)
Lemma slices3 (a b : nat) (s : string) :
  a <= b -> str_take a s +:+ (slice a b s +:+ str_drop b s) = s.
Proof.
  intros Hab. unfold slice.
  replace (str_drop b s) with (str_drop (b - a) (str_drop a s))
    by (rewrite str_drop_drop; f_equal; lia).
  now rewrite !str_take_drop.
Qed.

Lemma re_sub_class_app cls repl (a b : string) :
  re_sub_class cls repl (a +:+ b)
  = re_sub_class cls repl a +:+ re_sub_class cls repl b.
Proof.
  induction a as [|x a IH]; [reflexivity|].
  rewrite str_app_cons. simpl.
  destruct (cls x); rewrite IH; [now rewrite str_app_assoc|reflexivity].
Qed.

Lemma re_sub_class_none cls (s : string) :
  str_forallb (fun c => negb (cls c)) s = true -> re_sub_class cls "" s = s.
Proof.
  induction s as [|x s IH]; simpl; [reflexivity|].
  intros [Hx Hs]%andb_prop. destruct (cls x); [discriminate|].
  now rewrite IH.
Qed.

Lemma str_forallb_impl (p q : ascii -> bool) (s : string) :
  (forall c, p c = true -> q c = true) ->
  str_forallb p s = true -> str_forallb q s = true.
Proof.
  intros Hpq. induction s as [|x s IH]; simpl; [reflexivity|].
  intros [Hx Hs]%andb_prop. now rewrite (Hpq _ Hx), IH.
Qed.

(* ================================================================== *)
(** ** The normalizer *)

Lemma in_class_09 (c : ascii) : in_class [("0", "9")%char] c = is_digit c.
Proof. unfold in_class, is_digit. simpl. apply orb_false_r. Qed.

Lemma is_digit_not_hifen (c : ascii) : is_digit c = true -> Ascii.eqb c "-" = false.
Proof.
  intros H. destruct (Ascii.eqb_spec c "-") as [->|]; [discriminate H|reflexivity].
Qed.

Lemma limpar_numero_cons (c : ascii) (s : string) :
  limpar_numero (String c s)
  = if is_digit c then String c (limpar_numero s) else limpar_numero s.
Proof.
  unfold limpar_numero. cbn [re_sub_class]. rewrite in_class_09.
  now destruct (is_digit c).
Qed.

Lemma limpar_numero_so_digitos (s : string) : so_digitos (limpar_numero s) = true.
Proof.
  induction s as [|c s IH]; [reflexivity|].
  rewrite limpar_numero_cons. destruct (is_digit c) eqn:Hc; [|exact IH].
  unfold so_digitos in *. simpl. now rewrite Hc, IH.
Qed.

Lemma limpar_numero_id (s : string) : so_digitos s = true -> limpar_numero s = s.
Proof.
  induction s as [|c s IH]; [reflexivity|].
  unfold so_digitos. simpl. intros [Hc Hs]%andb_prop.
  rewrite limpar_numero_cons, Hc. now rewrite IH.
Qed.

Lemma so_digitos_sem_hifens (s : string) : so_digitos s = true -> sem_hifens s = s.
Proof.
  intros H. apply re_sub_class_none.
  revert H. apply str_forallb_impl. intros c Hc.
  now rewrite is_digit_not_hifen.
Qed.

(** C8.  [limpar_numero] is idempotent, and its result holds only ASCII
    decimal digits. *)
Theorem C8_limpar_numero_idempotent (x : string) :
  limpar_numero (limpar_numero x) = limpar_numero x
  /\ so_digitos (limpar_numero x) = true.
Proof.
  split.
  - apply limpar_numero_id, limpar_numero_so_digitos.
  - apply limpar_numero_so_digitos.
Qed.

(* ================================================================== *)
(** ** The Luhn checksum *)

Local Open Scope list_scope.

Lemma result_bind_ok {A B} (a : A) (f : A -> result B) : (Ok a ≫= f) = f a.
Proof. reflexivity. Qed.

Lemma foldl_add (acc : Z) (l : list Z) :
  foldl Z.add acc l = (acc + foldl Z.add 0 l)%Z.
Proof.
  revert acc; induction l as [|x l IH]; intros acc; cbn [foldl]; [lia|].
  rewrite (IH (acc + x)%Z), (IH (0 + x)%Z). lia.
Qed.

Lemma sum_cons (x : Z) (l : list Z) : sum (x :: l) = (x + sum l)%Z.
Proof. unfold sum. simpl. now rewrite foldl_add. Qed.

Lemma sum_snoc (x : Z) (l : list Z) : sum (l ++ [x]) = (sum l + x)%Z.
Proof. unfold sum. now rewrite foldl_app. Qed.

Lemma sum_fold_right (l : list Z) : sum l = fold_right Z.add 0%Z l.
Proof.
  induction l as [|x l IH]; [reflexivity|].
  rewrite sum_cons, IH. reflexivity.
Qed.

Lemma so_digitos_isdigit (d : string) :
  so_digitos d = true -> str_isdigit d = negb (String.eqb d "").
Proof.
  destruct d as [|c d]; [reflexivity|]. intros H.
  unfold str_isdigit. change (negb (String c d =? "")%string) with true.
  revert H. apply str_forallb_impl. intros x Hx.
  unfold chr_isdigit. now rewrite Hx.
Qed.

Lemma int_of_char_digit (c : ascii) :
  is_digit c = true -> int_of_char c = Ok (digit_val c).
Proof. intros H. unfold int_of_char. now rewrite H. Qed.

Lemma comprehension_int (d : string) :
  so_digitos d = true ->
  comprehension int_of_char (chars d) = Ok (map digit_val (chars d)).
Proof.
  induction d as [|c d IH]; [reflexivity|].
  intros H. unfold so_digitos in H. cbn [str_forallb] in H.
  apply andb_prop in H as [Hc Hd].
  cbn [chars comprehension map].
  rewrite (int_of_char_digit _ Hc), result_bind_ok, (IH Hd). reflexivity.
Qed.

Lemma list_pop_snoc {A} (l : list A) (x : A) : list_pop (l ++ [x]) = Ok (l, x).
Proof. unfold list_pop. now rewrite last_snoc, removelast_last. Qed.

(** [range(start, stop, 2)] one index at a time. *)
Lemma py_range_2_nil (start stop : nat) :
  stop <= start -> py_range start stop 2 = [].
Proof.
  intros H. unfold py_range.
  replace (stop - start + (2 - 1)) with 1 by lia. reflexivity.
Qed.

Lemma py_range_2_cons (start stop : nat) :
  start < stop -> py_range start stop 2 = start :: py_range (start + 2) stop 2.
Proof.
  intros H. unfold py_range.
  replace ((stop - start + (2 - 1)) / 2)
    with (S ((stop - (start + 2) + (2 - 1)) / 2)).
  - cbn [seq map]. f_equal; [lia|].
    rewrite <- seq_shift, map_map. apply map_ext. intros k. lia.
  - destruct (decide (stop - start = 1)) as [E|E].
    + rewrite E. replace (stop - (start + 2)) with 0 by lia. reflexivity.
    + replace (stop - start + (2 - 1)) with (1 * 2 + (stop - (start + 2) + (2 - 1)))
        by lia.
      rewrite Nat.div_add_l by lia. lia.
Qed.

Lemma dobrar_middle (pre rest : list Z) (d : Z) :
  dobrar (length pre) (pre ++ d :: rest) = Ok (pre ++ dbl d :: rest).
Proof.
  unfold dobrar. rewrite list_lookup_middle by reflexivity.
  rewrite insert_app_r_alt by lia. rewrite Nat.sub_diag. cbn [insert list_insert].
  rewrite list_lookup_middle by reflexivity.
  rewrite insert_app_r_alt by lia. rewrite Nat.sub_diag. cbn [insert list_insert].
  unfold dbl. now destruct (d * 2 >? 9)%Z.
Qed.

(** The loop of [validar_luhn] doubles every second digit, from the first
    one on, and never leaves the list. *)
Lemma for_each_dobrar (n : nat) : forall (l pre : list Z),
  length l <= n ->
  for_each (py_range (length pre) (length pre + length l) 2) dobrar (pre ++ l)
  = Ok (pre ++ alt_from true l).
Proof.
  induction n as [n IH] using lt_wf_ind. intros l pre Hn.
  destruct l as [|a [|b l]].
  - rewrite py_range_2_nil by (simpl; lia). reflexivity.
  - rewrite py_range_2_cons by (simpl; lia).
    cbn [for_each]. rewrite dobrar_middle, result_bind_ok.
    rewrite py_range_2_nil by (simpl; lia). reflexivity.
  - rewrite py_range_2_cons by (simpl; lia).
    cbn [for_each]. rewrite dobrar_middle, result_bind_ok.
    specialize (IH (length l) ltac:(simpl in Hn; lia) l (pre ++ [dbl a; b])
                  ltac:(lia)).
    rewrite length_app in IH. cbn [length] in IH |- *.
    replace (length pre + 2 + length l) with (length pre + S (S (length l)))
      in IH by lia.
    rewrite <- !app_assoc in IH. cbn [app] in IH.
    exact IH.
Qed.

(** [validar_luhn] never raises: it is [luhn_ok] on the digits that are left
    after the clean-up, and [False] when none is left. *)
Lemma validar_luhn_eq (numero : string) :
  validar_luhn numero
  = Ok (match chars (limpar_numero numero) with
        | [] => false
        | _ => luhn_ok (map digit_val (chars (limpar_numero numero)))
        end).
Proof.
  unfold validar_luhn.
  pose proof (limpar_numero_so_digitos numero) as Hd.
  rewrite (so_digitos_isdigit _ Hd), negb_involutive.
  destruct (limpar_numero numero) as [|c d] eqn:E; [reflexivity|].
  change ((String c d =? "")%string) with false. cbv iota.
  rewrite (comprehension_int _ Hd), result_bind_ok.
  cbn [chars]. set (ds := map digit_val (c :: chars d)).
  assert (Hne : ds <> []) by discriminate.
  destruct (exists_last Hne) as (l & x & ->).
  rewrite list_pop_snoc, result_bind_ok.
  pose proof (for_each_dobrar (length (reverse l)) (reverse l) [] (le_n _)) as Hl.
  cbn [length app] in Hl. cbn [Nat.add] in Hl. rewrite Hl, result_bind_ok.
  unfold luhn_ok, luhn_total. rewrite reverse_snoc. cbn [alt_from negb].
  rewrite sum_snoc, sum_cons. do 3 f_equal. lia.
Qed.

(** The specification's step 4 is the doubling of [alt_from]. *)
Lemma imap_alt_from (l : list Z) : forall (b : bool) (f : nat -> Z -> Z),
  (forall i d, f i d = if Bool.eqb (Nat.even i) b then dbl d else d) ->
  imap f l = alt_from b l.
Proof.
  induction l as [|x l IH]; intros b f Hf; [reflexivity|].
  cbn [imap alt_from]. f_equal.
  - rewrite Hf. now destruct b.
  - apply IH. intros i d. unfold compose. rewrite Hf, Nat.even_succ.
    unfold Nat.odd. now destruct (Nat.even i), b.
Qed.

Lemma dbl_comm (d : Z) :
  (if (2 * d >? 9)%Z then (2 * d - 9)%Z else (2 * d)%Z) = dbl d.
Proof. unfold dbl. now rewrite (Z.mul_comm 2 d). Qed.

(** On a non-empty digit string the specification's algorithm computes
    [luhn_ok] of the digit values. *)
Lemma spec_isLuhnValid_eq (d : string) :
  so_digitos d = true ->
  spec_isLuhnValid d
  = match chars d with
    | [] => false
    | _ => luhn_ok (map digit_val (chars d))
    end.
Proof.
  intros Hd. unfold spec_isLuhnValid. rewrite Hd.
  destruct d as [|c d]; [reflexivity|].
  change ((String c d =? "")%string || negb true) with false. cbv iota.
  cbn [chars]. set (ds := map digit_val (c :: chars d)).
  assert (Hne : ds <> []) by discriminate.
  destruct (exists_last Hne) as (l & x & ->).
  rewrite length_app. cbn [length].
  replace (length l + 1 - 1) with (length l) by lia.
  rewrite nth_middle, take_app_length, rev_alt. fold (reverse l).
  rewrite (imap_alt_from _ true)
    by (intros i v; rewrite dbl_comm; now destruct (Nat.even i)).
  unfold luhn_ok, luhn_total. rewrite reverse_snoc. cbn [alt_from negb].
  rewrite sum_cons, <- sum_fold_right. do 2 f_equal. lia.
Qed.

Lemma validar_luhn_spec (numero : string) :
  validar_luhn numero = Ok (spec_isLuhnValid (limpar_numero numero)).
Proof.
  rewrite validar_luhn_eq, spec_isLuhnValid_eq by apply limpar_numero_so_digitos.
  reflexivity.
Qed.

Lemma validar_luhn_um_digito (c : ascii) :
  validar_luhn (String c "") = Ok (Ascii.eqb c "0").
Proof. destruct c as [[] [] [] [] [] [] [] []]; vm_compute; reflexivity. Qed.

(** C4, as the code has it.  [validar_luhn] first deletes the characters
    that are not digits; on what is left it computes the algorithm of the
    specification: [False] when no digit is left, otherwise the check digit
    plus the reversed remaining digits, doubled (minus 9 above 9) at even
    indices, is tested for divisibility by 10.  It never raises.  On a
    string of one character the result is [True] exactly for ["0"]. *)
Theorem C4_validar_luhn_refines_spec (numero : string) :
  validar_luhn numero = Ok (spec_isLuhnValid (limpar_numero numero))
  /\ (forall c : ascii, validar_luhn (String c "") = Ok (Ascii.eqb c "0")).
Proof. split; [apply validar_luhn_spec|apply validar_luhn_um_digito]. Qed.

(** C4, as the specification states it, fails: the input below holds characters that
    are not digits, so the specification's algorithm answers [False]; the
    code deletes the blanks and answers [True]. *)
Lemma C4_counterexample_non_digit_input :
  so_digitos "4111 1111 1111 1111" = false
  /\ spec_isLuhnValid "4111 1111 1111 1111" = false
  /\ validar_luhn "4111 1111 1111 1111" = Ok true.
Proof. repeat split; vm_compute; reflexivity. Qed.

(* ------------------------------------------------------------------ *)
(** *** Single-digit errors *)

Lemma is_digit_bounds (c : ascii) :
  is_digit c = true -> (0 <= digit_val c <= 9)%Z.
Proof.
  destruct c as [[] [] [] [] [] [] [] []]; intros H; vm_compute in H;
    try discriminate H; vm_compute; split; discriminate.
Qed.

Lemma digit_val_inj (a c : ascii) : digit_val a = digit_val c -> a = c.
Proof.
  unfold digit_val. intros H.
  assert (E : N_of_ascii a = N_of_ascii c) by lia.
  apply (f_equal ascii_of_N) in E. now rewrite !ascii_N_embedding in E.
Qed.

(** On the ten digits both weights are injective and stay below 10. *)
Lemma peso_bounds (b : bool) (d : Z) :
  (0 <= d <= 9)%Z -> (0 <= peso b d <= 9)%Z.
Proof.
  intros H. unfold peso, dbl. destruct b; [|lia].
  destruct (Z.gtb_spec (d * 2) 9); lia.
Qed.

Lemma peso_inj (b : bool) (d e : Z) :
  (0 <= d <= 9)%Z -> (0 <= e <= 9)%Z -> peso b d = peso b e -> d = e.
Proof.
  intros Hd He. unfold peso, dbl. destruct b; [|lia].
  destruct (Z.gtb_spec (d * 2) 9), (Z.gtb_spec (e * 2) 9); lia.
Qed.

Lemma sum_app (l k : list Z) : sum (l ++ k) = (sum l + sum k)%Z.
Proof.
  induction l as [|x l IH]; [cbn [app]; unfold sum at 2; simpl; lia|].
  cbn [app]. rewrite !sum_cons, IH. lia.
Qed.

Lemma alt_from_app (l k : list Z) : forall b,
  alt_from b (l ++ k)
  = alt_from b l ++ alt_from (if Nat.even (length l) then b else negb b) k.
Proof.
  induction l as [|x l IH]; intros b; [reflexivity|].
  cbn [app alt_from length]. rewrite IH, Nat.even_succ. unfold Nat.odd.
  destruct (Nat.even (length l)); cbn [negb]; [reflexivity|].
  now rewrite negb_involutive.
Qed.

(** The total of a list of digits, split at one position. *)
Lemma luhn_total_middle (l1 l2 : list Z) (d : Z) :
  luhn_total (l1 ++ d :: l2)
  = (sum (alt_from false (reverse l2))
     + peso (Nat.odd (length l2)) d
     + sum (alt_from (Nat.even (length l2)) (reverse l1)))%Z.
Proof.
  unfold luhn_total. rewrite reverse_app, reverse_cons, <- app_assoc.
  cbn [app]. rewrite alt_from_app, sum_app. cbn [alt_from].
  rewrite sum_cons, length_reverse. unfold peso, Nat.odd.
  destruct (Nat.even (length l2)); cbn [negb]; lia.
Qed.

(** Two digit lists that differ at one position are not both valid. *)
Lemma luhn_ok_single_error (l1 l2 : list Z) (d e : Z) :
  (0 <= d <= 9)%Z -> (0 <= e <= 9)%Z -> d <> e ->
  luhn_ok (l1 ++ d :: l2) = true -> luhn_ok (l1 ++ e :: l2) = false.
Proof.
  intros Hd He Hne. unfold luhn_ok. rewrite !luhn_total_middle.
  set (A := sum (alt_from false (reverse l2))).
  set (B := sum (alt_from (Nat.even (length l2)) (reverse l1))).
  set (b := Nat.odd (length l2)).
  pose proof (peso_bounds b d Hd) as Bd.
  pose proof (peso_bounds b e He) as Be.
  assert (Hpe : peso b d <> peso b e)
    by (intros E; apply Hne; exact (peso_inj b d e Hd He E)).
  intros Hok%Z.eqb_eq. apply Z.eqb_neq. intros Hok'.
  apply Z.mod_divide in Hok; [|lia]. apply Z.mod_divide in Hok'; [|lia].
  destruct Hok as [q Hq], Hok' as [q' Hq']. lia.
Qed.

Lemma chars_str_set (i : nat) (c : ascii) (s : string) :
  chars (str_set i c s) = <[i := c]> (chars s).
Proof.
  revert i; induction s as [|x s IH]; intros [|i]; cbn; try reflexivity.
  now rewrite IH.
Qed.

Lemma chars_str_get (i : nat) (s : string) : str_get i s = chars s !! i.
Proof.
  revert i; induction s as [|x s IH]; intros [|i]; cbn; try reflexivity.
  apply IH.
Qed.

Lemma so_digitos_Forall (s : string) :
  so_digitos s = true <-> Forall (fun c => is_digit c = true) (chars s).
Proof.
  unfold so_digitos. induction s as [|x s IH]; cbn [str_forallb chars].
  - split; [constructor|reflexivity].
  - rewrite andb_true_iff, Forall_cons, IH. reflexivity.
Qed.

Lemma so_digitos_str_set (i : nat) (c : ascii) (s : string) :
  is_digit c = true -> so_digitos s = true -> so_digitos (str_set i c s) = true.
Proof.
  intros Hc. rewrite !so_digitos_Forall, chars_str_set.
  intros Hs. now apply Forall_insert.
Qed.


(** C6, as the code has it.  In a string of digits that [validar_luhn]
    accepts, replacing the digit at any position by a different digit gives
    a string that [validar_luhn] rejects: the original and the modified
    string are never both valid. *)
Theorem C6_single_digit_error_detected (d : string) (i : nat) (a c : ascii) :
  so_digitos d = true ->
  str_get i d = Some a ->
  is_digit c = true ->
  c <> a ->
  validar_luhn d = Ok true ->
  validar_luhn (str_set i c d) = Ok false.
Proof.
  intros Hd Hget Hc Hca.
  pose proof (so_digitos_str_set i c d Hc Hd) as Hd'.
  rewrite !validar_luhn_eq, (limpar_numero_id _ Hd), (limpar_numero_id _ Hd').
  rewrite chars_str_set. rewrite chars_str_get in Hget.
  assert (Ha : is_digit a = true).
  { apply so_digitos_Forall in Hd. rewrite Forall_lookup in Hd. eauto. }
  assert (Hi : <[i := c]> (chars d)
               = take i (chars d) ++ c :: drop (S i) (chars d))
    by (apply insert_take_drop; eapply lookup_lt_Some; eauto).
  pose proof (take_drop_middle _ _ _ Hget) as Hs.
  revert Hi Hs.
  generalize (take i (chars d)) (drop (S i) (chars d)). intros t dr -> <-.
  assert (Hnil : forall x, t ++ x :: dr <> []) by (intros x; now destruct t).
  rewrite !map_app. cbn [map].
  destruct (t ++ a :: dr) eqn:E1; [now apply Hnil in E1|].
  destruct (t ++ c :: dr) eqn:E2; [now apply Hnil in E2|].
  intros [= Hok]. f_equal.
  apply (luhn_ok_single_error _ _ (digit_val a) (digit_val c));
    auto using is_digit_bounds.
  intros E. apply Hca. symmetry. now apply digit_val_inj.
Qed.

Lemma C6_single_digit_error_detected_witness :
  validar_luhn (str_set 15 "2" "4111111111111111") = Ok false.
Proof.
  apply (C6_single_digit_error_detected "4111111111111111" 15 "1" "2");
    [reflexivity | reflexivity | reflexivity | discriminate | reflexivity].
Defined.

(** C6, as the specification states it, fails: ["1"] is rejected, and so is ["2"],
    which differs from it in one digit; the two have the same validity. *)
Lemma C6_counterexample_both_invalid :
  so_digitos "1" = true
  /\ str_get 0 "1" = Some "1"%char
  /\ is_digit "2" = true
  /\ "2"%char <> "1"%char
  /\ str_set 0 "2" "1" = "2"
  /\ validar_luhn "1" = Ok false
  /\ validar_luhn (str_set 0 "2" "1") = validar_luhn "1".
Proof. repeat split; try reflexivity. discriminate. Qed.

(* ================================================================== *)
(** ** The brand classifier *)

Local Open Scope string_scope.

(** Every key of the pattern dict has a display name, so the look-up of
    the loop cannot raise. *)
Lemma primeira_bandeira_total (numero : string) (items : list (string * regex)) :
  Forall (fun kv => exists nome, dict_get nomes_bandeiras (fst kv) = Ok nome) items ->
  exists o, primeira_bandeira items numero = Ok o.
Proof.
  induction 1 as [|[k p] items [nome Hk] _ IH]; [now exists None|].
  cbn [primeira_bandeira]. destruct (re_match p numero); [|exact IH].
  cbn [fst] in Hk. rewrite Hk. now exists (Some nome).
Qed.

Lemma identificar_bandeira_total (numero : string) :
  exists o, identificar_bandeira numero = Ok o.
Proof.
  apply primeira_bandeira_total.
  repeat (constructor; [eexists; reflexivity|]). constructor.
Qed.

Lemma prefix_split (p s : string) :
  String.prefix p s = true -> exists t, s = p +:+ t.
Proof.
  revert s; induction p as [|a p IH]; intros s H; [now exists s|].
  destruct s as [|b s]; [discriminate H|]. cbn [String.prefix] in H.
  destruct (ascii_dec a b) as [->|]; [|discriminate H].
  destruct (IH _ H) as [t ->]. now exists t.
Qed.

Lemma length_str_app (a b : string) :
  String.length (a +:+ b) = String.length a + String.length b.
Proof.
  induction a as [|x a IH]; [reflexivity|].
  rewrite str_app_cons. cbn [String.length]. now rewrite IH.
Qed.

Lemma so_digitos_app (a b : string) :
  so_digitos (a +:+ b) = so_digitos a && so_digitos b.
Proof.
  unfold so_digitos. induction a as [|x a IH]; [reflexivity|].
  rewrite str_app_cons. cbn [str_forallb]. now rewrite IH, andb_assoc.
Qed.

(** No pattern before [aura] accepts a number that starts with 5078: each
    of them fails within the first four characters. *)
Lemma antes_de_aura_5078 (t : string) :
  Forall (fun p => re_match p ("5078" +:+ t) = false)
    [Padroes.visa; Padroes.mastercard; Padroes.amex; Padroes.elo;
     Padroes.hipercard; Padroes.diners; Padroes.discover; Padroes.jcb].
Proof. repeat (constructor; [vm_compute; reflexivity|]). constructor. Qed.

Lemma app_5078 (t : string) :
  "5078" +:+ t = String "5" (String "0" (String "7" (String "8" t))).
Proof. reflexivity. Qed.

Lemma aura_19 (t : string) :
  so_digitos t = true -> String.length t = 15 ->
  re_match Padroes.aura ("5078" +:+ t) = true.
Proof.
  intros Hd Hl. explode t Hl. rewrite app_5078. unfold re_match. cbn -[is_digit].
  use_digits Hd. reflexivity.
Qed.

Lemma aura_16 (t : string) :
  String.length t = 12 -> re_match Padroes.aura ("5078" +:+ t) = false.
Proof.
  intros Hl. explode t Hl. rewrite app_5078. unfold re_match. cbn -[is_digit].
  now rewrite !andb_false_r.
Qed.

Lemma maestro_16 (t : string) :
  so_digitos t = true -> String.length t = 12 ->
  re_match Padroes.maestro ("5078" +:+ t) = true.
Proof.
  intros Hd Hl. explode t Hl. rewrite app_5078. unfold re_match. cbn -[is_digit].
  use_digits Hd. reflexivity.
Qed.

(** C1, as the code has it.  The pattern of Aura is 5078 followed by
    2 + 2 + 11 digits: a string of exactly 19 decimal digits that starts
    with 5078 is classified as Aura.  A string of exactly 16 decimal digits
    that starts with 5078 does not match it and falls through to the last
    pattern of the table: it is classified as Maestro. *)
Theorem C1_prefixo_5078 (numero : string) :
  so_digitos numero = true ->
  String.prefix "5078" numero = true ->
  len numero = 16 \/ len numero = 19 ->
  identificar_bandeira numero
  = Ok (Some (if (len numero =? 19)%nat then "Aura" else "Maestro")).
Proof.
  intros Hd [t ->]%prefix_split Hlen.
  unfold identificar_bandeira. rewrite (limpar_numero_id _ Hd).
  rewrite so_digitos_app in Hd. apply andb_prop in Hd as [_ Hd].
  unfold len in *. rewrite length_str_app in *. cbn [String.length] in Hlen.
  pose proof (antes_de_aura_5078 t) as F.
  repeat (let H := fresh "F" in apply Forall_cons in F as [H F]; cbv beta in H).
  unfold padroes_bandeiras. cbn [primeira_bandeira].
  rewrite F0, F1, F2, F3, F4, F5, F6, F7.
  destruct Hlen as [Hl|Hl].
  - assert (Ht : String.length t = 12) by lia.
    rewrite (aura_16 t Ht), (maestro_16 t Hd Ht), Ht. reflexivity.
  - assert (Ht : String.length t = 15) by lia.
    rewrite (aura_19 t Hd Ht), Ht. reflexivity.
Qed.

Lemma C1_prefixo_5078_witness :
  identificar_bandeira "5078123456789012345" = Ok (Some "Aura").
Proof.
  apply (C1_prefixo_5078 "5078123456789012345");
    [reflexivity | reflexivity | right; reflexivity].
Defined.

(** C1, as the specification states it, fails: sixteen digits that start with 5078
    are not classified as Aura. *)
Lemma C1_counterexample_5078_16 :
  so_digitos "5078000000000000" = true
  /\ len "5078000000000000" = 16
  /\ String.prefix "5078" "5078000000000000" = true
  /\ identificar_bandeira "5078000000000000" = Ok (Some "Maestro")
  /\ identificar_bandeira "5078000000000000" <> Ok (Some "Aura").
Proof. repeat split; try reflexivity. vm_compute. discriminate. Qed.

(* ================================================================== *)
(** ** The orchestrator *)

(** [validar_cartao] never raises, and its three exits in closed form. *)
Lemma validar_cartao_eq (numero : string) :
  exists luhn marca,
    validar_luhn (limpar_numero numero) = Ok luhn
    /\ identificar_bandeira (limpar_numero numero) = Ok marca
    /\ validar_cartao numero
       = Ok (if String.eqb (limpar_numero numero) "" then
               veredito numero false None false msg_caracteres_invalidos
             else if (len (limpar_numero numero) <? 13)%nat
                     || (19 <? len (limpar_numero numero))%nat then
               veredito numero false None false msg_comprimento_invalido
             else
               veredito numero luhn marca (luhn && is_not_None marca)
                 (mensagem_final luhn marca)).
Proof.
  destruct (identificar_bandeira_total (limpar_numero numero)) as [marca Hm].
  pose proof (validar_luhn_eq (limpar_numero numero)) as Hl.
  match type of Hl with _ = Ok ?v => set (luhn := v) in Hl; clearbody luhn end.
  exists luhn, marca. split; [exact Hl|]. split; [exact Hm|].
  unfold validar_cartao.
  rewrite (so_digitos_isdigit _ (limpar_numero_so_digitos numero)), negb_involutive.
  destruct (String.eqb (limpar_numero numero) ""); [reflexivity|].
  destruct ((len (limpar_numero numero) <? 13)%nat
            || (19 <? len (limpar_numero numero))%nat); [reflexivity|].
  rewrite Hl, result_bind_ok, Hm, result_bind_ok.
  unfold mensagem_final. destruct luhn, marca; reflexivity.
Qed.

Lemma mensagem_final_valida (luhn : bool) (marca : option string) :
  mensagem_final luhn marca <> msg_caracteres_invalidos.
Proof.
  unfold mensagem_final.
  destruct luhn, marca as [b|]; cbn [andb negb is_not_None is_None];
    intros H; cbv in H; discriminate H.
Qed.

(** C5.  On every input and at each of its three exits [validar_cartao]
    returns a verdict, and in it [valido_completo] equals
    [valido_luhn and bandeira is not None]. *)
Theorem C5_valido_completo_derived (numero : string) :
  exists r,
    validar_cartao numero = Ok r
    /\ valido_completo r = valido_luhn r && is_not_None (bandeira r).
Proof.
  destruct (validar_cartao_eq numero) as (luhn & marca & _ & _ & ->).
  eexists; split; [reflexivity|].
  destruct (String.eqb _ ""); [reflexivity|].
  destruct (_ || _); reflexivity.
Qed.

(** C9.  [validar_cartao] returns the verdict with the message
    ['Número contém caracteres inválidos'] exactly when the normalized
    string is empty: the normalizer leaves only digits, so the digit test
    fails on the empty string alone. *)
Theorem C9_malformed_iff_empty (numero : string) :
  exists r,
    validar_cartao numero = Ok r
    /\ (mensagem r = msg_caracteres_invalidos <-> limpar_numero numero = "").
Proof.
  destruct (validar_cartao_eq numero) as (luhn & marca & _ & _ & ->).
  eexists; split; [reflexivity|].
  destruct (String.eqb_spec (limpar_numero numero) "") as [E|E].
  - split; [intros _; exact E|reflexivity].
  - split; [|intros H; now destruct E].
    destruct (_ || _); cbn [mensagem veredito]; intros H.
    + discriminate H.
    + now apply mensagem_final_valida in H.
Qed.

(** C2, as the code has it.  When the normalized input has a length outside
    13..19, [validar_cartao] returns, without raising, a verdict with
    [valido_luhn] false, no brand and [valido_completo] false.  Its message
    is the invalid-length message when at least one digit is left, and the
    invalid-characters message when none is left, as for the empty string. *)
Theorem C2_comprimento_fora_do_intervalo (numero : string) :
  len (limpar_numero numero) < 13 \/ 19 < len (limpar_numero numero) ->
  exists r,
    validar_cartao numero = Ok r
    /\ valido_luhn r = false
    /\ bandeira r = None
    /\ valido_completo r = false
    /\ mensagem r = (if String.eqb (limpar_numero numero) ""
                     then msg_caracteres_invalidos
                     else msg_comprimento_invalido).
Proof.
  intros Hlen.
  destruct (validar_cartao_eq numero) as (luhn & marca & _ & _ & ->).
  eexists; split; [reflexivity|].
  destruct (String.eqb (limpar_numero numero) ""); [now repeat split|].
  assert (E : (len (limpar_numero numero) <? 13)%nat
              || (19 <? len (limpar_numero numero))%nat = true).
  { apply orb_true_iff. rewrite !Nat.ltb_lt. exact Hlen. }
  rewrite E. now repeat split.
Qed.

Lemma C2_comprimento_fora_do_intervalo_witness :
  exists r,
    validar_cartao "123" = Ok r
    /\ valido_luhn r = false
    /\ bandeira r = None
    /\ valido_completo r = false
    /\ mensagem r = msg_comprimento_invalido.
Proof.
  apply (C2_comprimento_fora_do_intervalo "123").
  left. vm_compute. lia.
Defined.

(** C2, as the specification states it, fails: on the empty string the verdict does
    not carry the invalid-length message. *)
Lemma C2_counterexample_empty_string :
  exists r,
    validar_cartao "" = Ok r
    /\ len (limpar_numero "") = 0
    /\ mensagem r = msg_caracteres_invalidos
    /\ mensagem r <> msg_comprimento_invalido.
Proof.
  eexists; split; [reflexivity|]. repeat split. discriminate.
Qed.

(** C7.  [validar_cartao("4111111111111111")] returns a verdict with
    [valido_luhn] true, brand ['Visa'], [valido_completo] true and a message
    that contains ['Visa']. *)
Theorem C7_visa_4111 :
  exists r,
    validar_cartao "4111111111111111" = Ok r
    /\ valido_luhn r = true
    /\ bandeira r = Some "Visa"
    /\ valido_completo r = true
    /\ mensagem r = "Cartão válido - Bandeira: Visa"
    /\ str_contains "Visa" (mensagem r) = true.
Proof. eexists; split; [vm_compute; reflexivity|]. repeat split. Qed.

(* ================================================================== *)
(** ** The formatter *)

Lemma marca_efetiva_total (numero : string) (bandeira : option string) :
  exists marca, marca_efetiva numero bandeira = Ok marca.
Proof.
  unfold marca_efetiva. destruct (falsy bandeira); [|now exists bandeira].
  apply identificar_bandeira_total.
Qed.

(** [formatar_numero] never raises, and its exits in closed form. *)
Lemma formatar_numero_eq (numero : string) (bandeira marca : option string) :
  marca_efetiva numero bandeira = Ok marca ->
  formatar_numero numero bandeira
  = Ok (if (len (limpar_numero numero) =? comprimento_esperado marca)%nat
        then agrupado marca (limpar_numero numero)
        else limpar_numero numero).
Proof.
  unfold marca_efetiva, formatar_numero, comprimento_esperado, agrupado.
  intros ->. rewrite result_bind_ok.
  destruct (option_string_eqb marca "American Express");
    [now destruct (_ =? _)%nat|].
  destruct (option_string_eqb marca "Diners Club");
    now destruct (_ =? _)%nat.
Qed.

Lemma slices4 (a b c : nat) (s : string) :
  a <= b -> b <= c ->
  str_take a s +:+ slice a b s +:+ slice b c s +:+ str_drop c s = s.
Proof.
  intros Hab Hbc.
  replace (slice b c s +:+ str_drop c s) with (str_drop b s);
    [now apply slices3|].
  unfold slice.
  replace (str_drop c s) with (str_drop (c - b) (str_drop b s))
    by (rewrite str_drop_drop; f_equal; lia).
  now rewrite str_take_drop.
Qed.

(** Deleting a class of characters that holds the hyphen undoes the
    insertion of a hyphen. *)
Lemma re_sub_class_hifen cls (x y : string) :
  cls "-"%char = true ->
  re_sub_class cls "" (x +:+ "-" +:+ y)
  = re_sub_class cls "" (x +:+ y).
Proof.
  intros H. rewrite !re_sub_class_app. f_equal.
  cbn [re_sub_class]. now rewrite H.
Qed.

Lemma re_sub_class_agrupado cls (marca : option string) (d : string) :
  cls "-"%char = true ->
  re_sub_class cls "" (agrupado marca d) = re_sub_class cls "" d.
Proof.
  intros H. unfold agrupado. destruct (_ || _).
  - rewrite (re_sub_class_hifen _ _ _ H), re_sub_class_app,
      (re_sub_class_hifen _ _ _ H), <- re_sub_class_app.
    now rewrite slices3 by lia.
  - rewrite (re_sub_class_hifen _ _ _ H), re_sub_class_app,
      (re_sub_class_hifen _ _ _ H), (re_sub_class_app _ _ (slice 4 8 d)),
      (re_sub_class_hifen _ _ _ H), <- !re_sub_class_app.
    now rewrite slices4 by lia.
Qed.

Lemma option_string_eqb_ne (marca : option string) (s : string) :
  marca <> Some s -> option_string_eqb marca s = false.
Proof.
  destruct marca as [b|]; [|reflexivity]. cbn [option_string_eqb].
  destruct (String.eqb_spec b s) as [->|]; [now intros []|reflexivity].
Qed.

(** C3, as the code has it.  With the brand given, or classified when none
    is given: when the number of digits differs from the length the brand's
    branch asks for (15 for American Express, 14 for Diners Club, 16 for
    every other value, the absent brand included), [formatar_numero]
    returns the normalized digit string with no separator.  With exactly 16
    digits and any brand other than American Express and Diners Club, an
    unrecognized or absent one included, it returns the digits in groups
    4-4-4-4. *)
Theorem C3_formatar_numero_por_comprimento
    (numero : string) (bandeira marca : option string) :
  marca_efetiva numero bandeira = Ok marca ->
  (len (limpar_numero numero) <> comprimento_esperado marca ->
   formatar_numero numero bandeira = Ok (limpar_numero numero))
  /\ (marca <> Some "American Express" ->
      marca <> Some "Diners Club" ->
      len (limpar_numero numero) = 16 ->
      formatar_numero numero bandeira
      = Ok (str_take 4 (limpar_numero numero) +:+ "-"
              +:+ slice 4 8 (limpar_numero numero) +:+ "-"
              +:+ slice 8 12 (limpar_numero numero) +:+ "-"
              +:+ str_drop 12 (limpar_numero numero))).
Proof.
  intros Hm. rewrite (formatar_numero_eq _ _ _ Hm). split.
  - intros Hlen.
    destruct (Nat.eqb_spec (len (limpar_numero numero)) (comprimento_esperado marca));
      [contradiction|reflexivity].
  - intros Ha Hd Hlen. unfold comprimento_esperado, agrupado.
    rewrite (option_string_eqb_ne _ _ Ha), (option_string_eqb_ne _ _ Hd), Hlen.
    reflexivity.
Qed.

Lemma C3_formatar_numero_por_comprimento_witness :
  formatar_numero "4111111111111111" (Some "American Express")
  = Ok "4111111111111111"
  /\ formatar_numero "1234567890123456" None = Ok "1234-5678-9012-3456".
Proof.
  split.
  - apply (C3_formatar_numero_por_comprimento "4111111111111111"
             (Some "American Express") (Some "American Express"));
      [reflexivity | vm_compute; lia].
  - apply (C3_formatar_numero_por_comprimento "1234567890123456" None None);
      [vm_compute; reflexivity | discriminate | discriminate
      | vm_compute; reflexivity].
Defined.

(** C3, as the specification states it, fails: no pattern matches the sixteen digits
    below, so the brand is unrecognized, and yet the digits come back in
    groups of four. *)
Lemma C3_counterexample_unrecognized_16 :
  so_digitos "1234567890123456" = true
  /\ identificar_bandeira "1234567890123456" = Ok None
  /\ formatar_numero "1234567890123456" None = Ok "1234-5678-9012-3456"
  /\ formatar_numero "1234567890123456" None <> Ok "1234567890123456".
Proof. repeat split; try reflexivity. vm_compute. discriminate. Qed.

(** C10.  For every input and every optional brand, [formatar_numero]
    returns a string whose normalization is the normalization of the
    input: no digit is lost, added or moved.  What it returns is the
    normalized digit string with hyphens put in: without its hyphens it is
    that string again. *)
Theorem C10_formatar_numero_keeps_digits
    (numero : string) (bandeira : option string) :
  exists out,
    formatar_numero numero bandeira = Ok out
    /\ limpar_numero out = limpar_numero numero
    /\ sem_hifens out = limpar_numero numero.
Proof.
  destruct (marca_efetiva_total numero bandeira) as [marca Hm].
  rewrite (formatar_numero_eq _ _ _ Hm).
  pose proof (limpar_numero_so_digitos numero) as Hd.
  eexists; split; [reflexivity|].
  destruct (_ =? _)%nat.
  - unfold limpar_numero at 1, sem_hifens.
    rewrite !re_sub_class_agrupado by reflexivity.
    split; [apply limpar_numero_id, Hd|apply so_digitos_sem_hifens, Hd].
  - split; [apply limpar_numero_id, Hd|apply so_digitos_sem_hifens, Hd].
Qed.

(* ================================================================== *)
(** ** What the patterns accept *)

Lemma length_str_drop (n : nat) (s : string) :
  String.length (str_drop n s) = String.length s - n.
Proof.
  revert s; induction n as [|n IH]; intros [|c s]; cbn; try reflexivity.
  apply IH.
Qed.

Lemma so_digitos_str_drop (n : nat) (s : string) :
  so_digitos s = true -> so_digitos (str_drop n s) = true.
Proof.
  revert s; induction n as [|n IH]; intros [|c s] H; cbn; try exact H.
  apply IH. unfold so_digitos in H. cbn [str_forallb] in H.
  now apply andb_prop in H as [_ H].
Qed.

(** Among strings of digits only the empty one is at an end of line. *)
Lemma at_eol_digitos (s : string) :
  so_digitos s = true -> at_eol s = true -> s = "".
Proof.
  destruct s as [|c [|c' s]]; [reflexivity| |discriminate].
  unfold so_digitos. cbn. rewrite andb_true_r. intros Hc He.
  apply Ascii.eqb_eq in He. subst c. discriminate Hc.
Qed.

(** The matcher stays within [alcance]: a successful match covers one of
    the listed numbers of characters, inside the subject, and hands the
    rest to the continuation. *)
Lemma rmatch_alcance (r : regex) : forall pos s k,
  rmatch r pos s k = true ->
  exists n e,
    In (n, e) (alcance r)
    /\ n <= String.length s
    /\ (e = true -> at_eol (str_drop n s) = true)
    /\ k (pos + n) (str_drop n s) = true.
Proof.
  induction r as [| c | rs | rs | | | | r1 IH1 r2 IH2 | r1 IH1 r2 IH2];
    intros pos s k H; cbn [rmatch] in H.
  - exists 0, false. rewrite Nat.add_0_r. cbn. repeat split; auto with lia; try discriminate.
  - destruct s as [|a s]; [discriminate|]. apply andb_prop in H as [_ H].
    exists 1, false. rewrite Nat.add_1_r. cbn. repeat split; auto with lia; try discriminate.
  - destruct s as [|a s]; [discriminate|]. apply andb_prop in H as [_ H].
    exists 1, false. rewrite Nat.add_1_r. cbn. repeat split; auto with lia; try discriminate.
  - destruct s as [|a s]; [discriminate|]. apply andb_prop in H as [_ H].
    exists 1, false. rewrite Nat.add_1_r. cbn. repeat split; auto with lia; try discriminate.
  - destruct s as [|a s]; [discriminate|]. apply andb_prop in H as [_ H].
    exists 1, false. rewrite Nat.add_1_r. cbn. repeat split; auto with lia; try discriminate.
  - apply andb_prop in H as [_ H].
    exists 0, false. rewrite Nat.add_0_r. cbn. repeat split; auto with lia; try discriminate.
  - apply andb_prop in H as [He H].
    exists 0, true. rewrite Nat.add_0_r. cbn. repeat split; auto with lia.
  - apply IH1 in H as (n1 & e1 & In1 & Hn1 & He1 & H).
    apply IH2 in H as (n2 & e2 & In2 & Hn2 & He2 & H).
    rewrite length_str_drop in Hn2. rewrite str_drop_drop in *.
    exists (n1 + n2), (e2 || (e1 && (n2 =? 0)%nat)).
    split; [|split; [lia|split]].
    + cbn [alcance]. apply in_flat_map. exists (n1, e1). split; [exact In1|].
      apply in_map_iff. exists (n2, e2). split; [reflexivity|exact In2].
    + intros He. apply orb_prop in He as [->|He]; [now apply He2|].
      apply andb_prop in He as [-> Hz]. apply Nat.eqb_eq in Hz. subst n2.
      rewrite Nat.add_0_r. now apply He1.
    + now rewrite Nat.add_assoc.
  - apply orb_prop in H as [H|H];
      [apply IH1 in H|apply IH2 in H]; destruct H as (n & e & Hin & Hrest);
      exists n, e; (split; [cbn [alcance]; apply in_app_iff; auto|exact Hrest]).
Qed.

(** A pattern all of whose matches end on [$] accepts a string of digits
    only as a whole: the length of the string is one of the listed ones. *)
Lemma re_match_comprimento (p : regex) (s : string) :
  forallb snd (alcance p) = true ->
  so_digitos s = true ->
  re_match p s = true ->
  In (String.length s) (map fst (alcance p)).
Proof.
  intros Hall Hd H. unfold re_match in H.
  apply rmatch_alcance in H as (n & e & Hin & Hn & He & _).
  rewrite forallb_forall in Hall. pose proof (Hall _ Hin) as E. cbn in E.
  specialize (He E).
  apply at_eol_digitos in He; [|now apply so_digitos_str_drop].
  apply (f_equal String.length) in He. rewrite length_str_drop in He.
  cbn in He. replace (String.length s) with n by lia.
  apply in_map_iff. now exists (n, e).
Qed.

(** The loop of [identificar_bandeira] answers with the name of a pattern
    that matches, or with [None] when no pattern matches. *)
Lemma primeira_bandeira_some (items : list (string * regex)) (s nome : string) :
  primeira_bandeira items s = Ok (Some nome) ->
  exists k p,
    In (k, p) items /\ re_match p s = true
    /\ dict_get nomes_bandeiras k = Ok nome.
Proof.
  induction items as [|[k p] items IH]; [discriminate|].
  cbn [primeira_bandeira]. destruct (re_match p s) eqn:Hp.
  - destruct (dict_get nomes_bandeiras k) as [n|] eqn:Hk; [|discriminate].
    intros [= <-]. exists k, p. repeat split; auto using in_eq.
  - intros (k' & p' & Hin & H)%IH. exists k', p'. split; [now right|exact H].
Qed.

Lemma primeira_bandeira_none (items : list (string * regex)) (s : string) :
  primeira_bandeira items s = Ok None ->
  Forall (fun kp => re_match (snd kp) s = false) items.
Proof.
  induction items as [|[k p] items IH]; [constructor|].
  cbn [primeira_bandeira]. destruct (re_match p s) eqn:Hp.
  - now destruct (dict_get nomes_bandeiras k).
  - intros H. constructor; [exact Hp|now apply IH].
Qed.

Lemma In_subset_check (x : nat) (l ls : list nat) :
  forallb (fun n => existsb (Nat.eqb n) ls) l = true -> In x l -> In x ls.
Proof.
  rewrite forallb_forall. intros H Hx. apply H in Hx.
  apply existsb_exists in Hx as (y & Hy & ->%Nat.eqb_eq). exact Hy.
Qed.

(** Every brand comes with the digit counts of its pattern only. *)
Lemma identificar_bandeira_comprimento (numero nome : string) :
  identificar_bandeira numero = Ok (Some nome) ->
  exists ls,
    In (nome, ls) comprimentos_bandeiras
    /\ In (len (limpar_numero numero)) ls.
Proof.
  unfold identificar_bandeira.
  intros (k & p & Hin & Hp & Hk)%primeira_bandeira_some.
  pose proof (limpar_numero_so_digitos numero) as Hd.
  unfold len. revert Hd Hp. generalize (limpar_numero numero). intros d Hd Hp.
  unfold padroes_bandeiras in Hin. cbn [In] in Hin.
  repeat (destruct Hin as [[= <- <-]|Hin];
    [ vm_compute in Hk; injection Hk as <-;
      apply re_match_comprimento in Hp; [|vm_compute; reflexivity|exact Hd];
      eexists; split;
      [ unfold comprimentos_bandeiras; cbn [In]; repeat (first [left; reflexivity | right])
      | revert Hp; apply In_subset_check; vm_compute; reflexivity ]
    | ]).
  contradiction.
Qed.

Lemma dict_get_In {V} (d : list (string * V)) (k : string) (v : V) :
  dict_get d k = Ok v -> exists k', In (k', v) d.
Proof.
  induction d as [|[k' v'] d IH]; [discriminate|]. cbn [dict_get].
  destruct (String.eqb k' k).
  - intros [= ->]. exists k'. now left.
  - intros [k'' H]%IH. exists k''. now right.
Qed.

(** X1.  [identificar_bandeira] never raises.  It answers [None] exactly
    when no pattern of the table matches the normalized digits; otherwise it
    answers with the display name, one of the ten of [nomes_bandeiras], of
    a pattern of the table that matches them. *)
Theorem X1_identificar_bandeira_closed (numero : string) :
  exists o,
    identificar_bandeira numero = Ok o
    /\ (o = None
        <-> Forall (fun kp => re_match (snd kp) (limpar_numero numero) = false)
              padroes_bandeiras)
    /\ (forall nome, o = Some nome ->
          In nome (map snd nomes_bandeiras)
          /\ exists k p,
               In (k, p) padroes_bandeiras
               /\ re_match p (limpar_numero numero) = true
               /\ dict_get nomes_bandeiras k = Ok nome).
Proof.
  destruct (identificar_bandeira_total numero) as [o Ho].
  exists o. split; [exact Ho|]. unfold identificar_bandeira in Ho.
  assert (Hsome : forall nome, o = Some nome ->
            In nome (map snd nomes_bandeiras)
            /\ exists k p,
                 In (k, p) padroes_bandeiras
                 /\ re_match p (limpar_numero numero) = true
                 /\ dict_get nomes_bandeiras k = Ok nome).
  { intros nome ->.
    apply primeira_bandeira_some in Ho as (k & p & Hin & Hp & Hk).
    split; [|now exists k, p].
    apply dict_get_In in Hk as [k' Hk].
    apply in_map_iff. now exists (k', nome). }
  split; [|exact Hsome]. split.
  - intros ->. now apply primeira_bandeira_none.
  - intros Hnone. destruct o as [nome|]; [|reflexivity].
    destruct (Hsome nome eq_refl) as (_ & k & p & Hin & Hp & _).
    rewrite Forall_forall in Hnone. apply list_elem_of_In in Hin.
    specialize (Hnone _ Hin). cbn [snd] in Hnone. congruence.
Qed.

(** X2.  A brand is returned only for the digit counts its pattern accepts:
    Visa 13 or 16, Mastercard 16, American Express 15, Elo 4 to 6,
    Hipercard 16 or 19, Diners Club 14, Discover 16, JCB 15 or 16, Aura 19,
    Maestro 12 to 19. *)
Theorem X2_identificar_bandeira_comprimento (numero nome : string) :
  identificar_bandeira numero = Ok (Some nome) ->
  exists ls,
    In (nome, ls) comprimentos_bandeiras
    /\ In (len (limpar_numero numero)) ls.
Proof. apply identificar_bandeira_comprimento. Qed.

Lemma X2_identificar_bandeira_comprimento_witness :
  exists ls,
    In ("Visa", ls) comprimentos_bandeiras
    /\ In (len (limpar_numero "4111 1111 1111 1111")) ls.
Proof.
  apply (X2_identificar_bandeira_comprimento "4111 1111 1111 1111" "Visa").
  vm_compute. reflexivity.
Defined.

(* ================================================================== *)
(** ** The methods see the digits only *)

Lemma limpar_numero_idem (x : string) :
  limpar_numero (limpar_numero x) = limpar_numero x.
Proof. apply limpar_numero_id, limpar_numero_so_digitos. Qed.

Lemma validar_luhn_limpo (x : string) :
  validar_luhn (limpar_numero x) = validar_luhn x.
Proof. unfold validar_luhn. now rewrite limpar_numero_idem. Qed.

Lemma identificar_bandeira_limpo (x : string) :
  identificar_bandeira (limpar_numero x) = identificar_bandeira x.
Proof. unfold identificar_bandeira. now rewrite limpar_numero_idem. Qed.

Lemma formatar_numero_limpo (x : string) (b : option string) :
  formatar_numero (limpar_numero x) b = formatar_numero x b.
Proof. unfold formatar_numero. now rewrite limpar_numero_idem. Qed.

(** X3.  Two inputs with the same digits in the same order get the same
    answer from [validar_luhn], [identificar_bandeira] and
    [formatar_numero]: blanks, hyphens and any other separator are
    ignored. *)
Theorem X3_same_digits_same_answer (x y : string) (b : option string) :
  limpar_numero x = limpar_numero y ->
  validar_luhn x = validar_luhn y
  /\ identificar_bandeira x = identificar_bandeira y
  /\ formatar_numero x b = formatar_numero y b.
Proof.
  intros E.
  rewrite <- (validar_luhn_limpo x), <- (validar_luhn_limpo y),
    <- (identificar_bandeira_limpo x), <- (identificar_bandeira_limpo y),
    <- (formatar_numero_limpo x), <- (formatar_numero_limpo y), E.
  repeat split.
Qed.

Lemma X3_same_digits_same_answer_witness :
  validar_luhn "4111 1111 1111 1111" = validar_luhn "4111-1111-1111-1111"
  /\ identificar_bandeira "4111 1111 1111 1111"
     = identificar_bandeira "4111-1111-1111-1111"
  /\ formatar_numero "4111 1111 1111 1111" None
     = formatar_numero "4111-1111-1111-1111" None.
Proof.
  apply (X3_same_digits_same_answer "4111 1111 1111 1111"
           "4111-1111-1111-1111" None).
  vm_compute. reflexivity.
Defined.

(* ================================================================== *)
(** ** More on the orchestrator *)

(** The verdict of [validar_cartao], read back from a normal return. *)
Lemma validar_cartao_inv (numero : string) (r : resultado) :
  validar_cartao numero = Ok r ->
  exists luhn marca,
    validar_luhn numero = Ok luhn
    /\ identificar_bandeira numero = Ok marca
    /\ r = (if String.eqb (limpar_numero numero) "" then
              veredito numero false None false msg_caracteres_invalidos
            else if (len (limpar_numero numero) <? 13)%nat
                    || (19 <? len (limpar_numero numero))%nat then
              veredito numero false None false msg_comprimento_invalido
            else
              veredito numero luhn marca (luhn && is_not_None marca)
                (mensagem_final luhn marca)).
Proof.
  destruct (validar_cartao_eq numero) as (luhn & marca & Hl & Hm & ->).
  intros [= <-]. exists luhn, marca.
  rewrite validar_luhn_limpo in Hl. rewrite identificar_bandeira_limpo in Hm.
  auto.
Qed.

(** The two early exits leave the flags at their defaults; the full path
    is taken exactly for 13 to 19 digits. *)
Lemma validar_cartao_cases (numero : string) (r : resultado) :
  validar_cartao numero = Ok r ->
  (valido_luhn r = false /\ bandeira r = None /\ valido_completo r = false
   /\ (mensagem r = msg_caracteres_invalidos
       \/ mensagem r = msg_comprimento_invalido)
   /\ (comprimento r < 13 \/ 19 < comprimento r))
  \/ (13 <= comprimento r <= 19
      /\ validar_luhn numero = Ok (valido_luhn r)
      /\ identificar_bandeira numero = Ok (bandeira r)
      /\ valido_completo r = valido_luhn r && is_not_None (bandeira r)
      /\ mensagem r = mensagem_final (valido_luhn r) (bandeira r)).
Proof.
  intros (luhn & marca & Hl & Hm & ->)%validar_cartao_inv.
  destruct (String.eqb_spec (limpar_numero numero) "") as [E|E].
  - left. cbn. rewrite E. cbn. repeat split; auto. left. lia.
  - destruct (_ || _) eqn:Hlen.
    + left. cbn. repeat split; auto.
      apply orb_prop in Hlen as [H|H]; apply Nat.ltb_lt in H; auto.
    + right. cbn. apply orb_false_elim in Hlen as [H1 H2].
      apply Nat.ltb_ge in H1, H2. repeat split; auto.
Qed.

(** X4.  Between 13 and 19 digits the verdict carries what the two
    methods return on their own: [valido_luhn] is the answer of
    [validar_luhn] and [bandeira] the answer of [identificar_bandeira] on
    the same input. *)
Theorem X4_veredito_agrees_with_methods (numero : string) (r : resultado) :
  validar_cartao numero = Ok r ->
  13 <= len (limpar_numero numero) <= 19 ->
  validar_luhn numero = Ok (valido_luhn r)
  /\ identificar_bandeira numero = Ok (bandeira r).
Proof.
  intros H Hlen. pose proof H as (luhn & marca & _ & _ & ->)%validar_cartao_inv.
  apply validar_cartao_cases in H as [(_ & _ & _ & _ & Hc)|H];
    [|now destruct H as (_ & ? & ? & _)].
  revert Hc. destruct (String.eqb _ ""); [cbn; lia|].
  destruct (_ || _); cbn; lia.
Qed.

Lemma X4_veredito_agrees_with_methods_witness :
  exists r,
    validar_cartao "5555 5555 5555 4444" = Ok r
    /\ validar_luhn "5555 5555 5555 4444" = Ok (valido_luhn r)
    /\ identificar_bandeira "5555 5555 5555 4444" = Ok (bandeira r).
Proof.
  eexists. split; [vm_compute; reflexivity|].
  apply (X4_veredito_agrees_with_methods "5555 5555 5555 4444");
    [vm_compute; reflexivity | vm_compute; lia].
Defined.

(** The brand of a verdict comes with one of its digit counts, between 13
    and 19, and is never Elo. *)
Lemma veredito_brand_lengths (numero nome : string) (r : resultado) :
  validar_cartao numero = Ok r ->
  bandeira r = Some nome ->
  13 <= comprimento r <= 19
  /\ nome <> "Elo"
  /\ exists ls, In (nome, ls) comprimentos_bandeiras /\ In (comprimento r) ls.
Proof.
  intros H Hb. pose proof H as (luhn & marca & _ & _ & Hr)%validar_cartao_inv.
  assert (Hc : comprimento r = len (limpar_numero numero)).
  { rewrite Hr. destruct (String.eqb _ ""); [reflexivity|].
    destruct (_ || _); reflexivity. }
  apply validar_cartao_cases in H as [(_ & Hn & _)|(Hlen & _ & Hm & _)];
    [congruence|].
  rewrite Hb in Hm. apply identificar_bandeira_comprimento in Hm as (ls & Hin & Hl).
  rewrite <- Hc in Hl. split; [exact Hlen|]. split; [|now exists ls].
  intros ->. unfold comprimentos_bandeiras in Hin. cbn [In] in Hin.
  repeat (destruct Hin as [Hin|Hin];
          [try discriminate Hin; injection Hin as <-; cbn [In] in Hl; lia|]).
  contradiction.
Qed.

(** X5.  A verdict that names a brand has 13 to 19 digits, one of the digit
    counts of that brand, and the brand is never Elo: the Elo pattern is
    anchored on its 4 to 6 leading digits alone, so no number that passes
    the length test matches it. *)
Theorem X5_veredito_brand_lengths (numero nome : string) (r : resultado) :
  validar_cartao numero = Ok r ->
  bandeira r = Some nome ->
  13 <= comprimento r <= 19
  /\ nome <> "Elo"
  /\ exists ls, In (nome, ls) comprimentos_bandeiras /\ In (comprimento r) ls.
Proof. apply veredito_brand_lengths. Qed.

Lemma X5_veredito_brand_lengths_witness :
  exists r,
    validar_cartao "4111111111111111" = Ok r
    /\ 13 <= comprimento r <= 19
    /\ "Visa" <> "Elo"
    /\ exists ls, In ("Visa", ls) comprimentos_bandeiras /\ In (comprimento r) ls.
Proof.
  eexists. split; [vm_compute; reflexivity|].
  apply (X5_veredito_brand_lengths "4111111111111111" "Visa");
    [vm_compute; reflexivity | reflexivity].
Defined.

(** X6.  The message agrees with the flag: when [valido_completo] is true
    the verdict names a brand and its message is
    ['Cartão válido - Bandeira: '] followed by that brand; when it is false
    the message does not start with ['Cartão válido']. *)
Theorem X6_mensagem_agrees_with_flag (numero : string) (r : resultado) :
  validar_cartao numero = Ok r ->
  if valido_completo r
  then exists nome,
         bandeira r = Some nome
         /\ mensagem r = "Cartão válido - Bandeira: " +:+ nome
  else String.prefix "Cartão válido" (mensagem r) = false.
Proof.
  intros [(_ & _ & -> & [-> | ->] & _) | (_ & _ & _ & -> & ->)]%validar_cartao_cases;
    try (vm_compute; reflexivity).
  unfold mensagem_final.
  destruct (valido_luhn r), (bandeira r) as [nome|]; cbn [andb negb is_not_None is_None];
    try (vm_compute; reflexivity).
  now exists nome.
Qed.

Lemma X6_mensagem_agrees_with_flag_witness :
  exists r,
    validar_cartao "378282246310005" = Ok r
    /\ if valido_completo r
       then exists nome,
              bandeira r = Some nome
              /\ mensagem r = "Cartão válido - Bandeira: " +:+ nome
       else String.prefix "Cartão válido" (mensagem r) = false.
Proof.
  eexists. split; [vm_compute; reflexivity|].
  apply (X6_mensagem_agrees_with_flag "378282246310005").
  vm_compute. reflexivity.
Defined.

(** X7.  The verdict keeps the input as it was given in [numero_original];
    every other field depends on the digits of the input alone: two inputs
    with the same digits get verdicts that differ in [numero_original]
    only, and [comprimento] is the length of [numero_limpo]. *)
Theorem X7_veredito_depends_on_digits (x y : string) (rx ry : resultado) :
  limpar_numero x = limpar_numero y ->
  validar_cartao x = Ok rx ->
  validar_cartao y = Ok ry ->
  numero_original rx = x
  /\ numero_original ry = y
  /\ numero_limpo rx = limpar_numero x
  /\ comprimento rx = len (numero_limpo rx)
  /\ numero_limpo rx = numero_limpo ry
  /\ valido_luhn rx = valido_luhn ry
  /\ bandeira rx = bandeira ry
  /\ valido_completo rx = valido_completo ry
  /\ comprimento rx = comprimento ry
  /\ mensagem rx = mensagem ry.
Proof.
  intros E (lx & mx & Hlx & Hmx & ->)%validar_cartao_inv
           (ly & my & Hly & Hmy & ->)%validar_cartao_inv.
  assert (lx = ly) as <-.
  { rewrite <- validar_luhn_limpo, E, validar_luhn_limpo, Hly in Hlx. congruence. }
  assert (mx = my) as <-.
  { rewrite <- identificar_bandeira_limpo, E, identificar_bandeira_limpo, Hmy in Hmx.
    congruence. }
  unfold veredito. rewrite <- E.
  destruct (String.eqb _ ""); [cbn; now repeat split|].
  destruct (_ || _); cbn; now repeat split.
Qed.

Lemma X7_veredito_depends_on_digits_witness :
  exists rx ry,
    validar_cartao "4111 1111 1111 1111" = Ok rx
    /\ validar_cartao "4111-1111-1111-1111" = Ok ry
    /\ numero_original rx = "4111 1111 1111 1111"
    /\ numero_original ry = "4111-1111-1111-1111"
    /\ numero_limpo rx = limpar_numero "4111 1111 1111 1111"
    /\ comprimento rx = len (numero_limpo rx)
    /\ numero_limpo rx = numero_limpo ry
    /\ valido_luhn rx = valido_luhn ry
    /\ bandeira rx = bandeira ry
    /\ valido_completo rx = valido_completo ry
    /\ comprimento rx = comprimento ry
    /\ mensagem rx = mensagem ry.
Proof.
  eexists _, _. split; [vm_compute; reflexivity|].
  split; [vm_compute; reflexivity|].
  apply (X7_veredito_depends_on_digits "4111 1111 1111 1111" "4111-1111-1111-1111");
    vm_compute; reflexivity.
Defined.

(* ================================================================== *)
(** ** More on the normalizer *)

Lemma chars_app (a b : string) : chars (a +:+ b) = (chars a ++ chars b)%list.
Proof.
  induction a as [|x a IH]; [reflexivity|].
  rewrite str_app_cons. cbn [chars app]. now rewrite IH.
Qed.

Lemma so_digitos_limpar_numero_id (s : string) :
  limpar_numero s = s -> so_digitos s = true.
Proof. intros <-. apply limpar_numero_so_digitos. Qed.

(** X8.  [limpar_numero] keeps exactly the ASCII digits of its input, in
    the order they have there; it never makes a string longer, and it
    returns its input unchanged exactly when the input holds digits only. *)
Theorem X8_limpar_numero_filter (s : string) :
  chars (limpar_numero s) = List.filter is_digit (chars s)
  /\ len (limpar_numero s) <= len s
  /\ (limpar_numero s = s <-> so_digitos s = true).
Proof.
  split; [|split].
  - induction s as [|c s IH]; [reflexivity|].
    rewrite limpar_numero_cons. cbn [chars List.filter].
    destruct (is_digit c); cbn [chars]; now rewrite IH.
  - unfold len. induction s as [|c s IH]; [reflexivity|].
    rewrite limpar_numero_cons.
    destruct (is_digit c); cbn [String.length]; lia.
  - split; [apply so_digitos_limpar_numero_id|apply limpar_numero_id].
Qed.

(* ================================================================== *)
(** ** More on the Luhn checksum *)

Local Open Scope list_scope.

Lemma chars_nil (s : string) : chars s = [] -> s = "".
Proof. now destruct s. Qed.

(** [validar_luhn] on an input with a known run of digits in it. *)
Lemma validar_luhn_parts (p mid q : string) :
  so_digitos mid = true -> mid <> "" ->
  validar_luhn (p +:+ mid +:+ q)
  = Ok (luhn_ok (map digit_val
                   (chars (limpar_numero p) ++ chars mid ++ chars (limpar_numero q)))).
Proof.
  intros Hd Hne. rewrite validar_luhn_eq.
  unfold limpar_numero at 1 2. rewrite !re_sub_class_app.
  fold (limpar_numero p) (limpar_numero mid) (limpar_numero q).
  rewrite (limpar_numero_id _ Hd), !chars_app.
  destruct (chars (limpar_numero p) ++ chars mid ++ chars (limpar_numero q)) eqn:E;
    [|reflexivity].
  apply app_eq_nil in E as [_ E]. apply app_eq_nil in E as [E _].
  now apply chars_nil in E.
Qed.

Lemma peso_zero (b : bool) : peso b 0 = 0%Z.
Proof. now destruct b. Qed.

Lemma luhn_total_zero (ds : list Z) : luhn_total (0%Z :: ds) = luhn_total ds.
Proof.
  unfold luhn_total. rewrite reverse_cons, alt_from_app, sum_app.
  cbn [alt_from]. fold (peso (if Nat.even (length (reverse ds)) then false else negb false) 0).
  rewrite peso_zero. unfold sum at 2. cbn. lia.
Qed.

(** X9.  A zero in front of an input that holds at least one digit does not
    change the answer of [validar_luhn]: the weights are counted from the
    check digit, and a zero weighs nothing doubled or not. *)
Theorem X9_validar_luhn_leading_zero (d : string) :
  limpar_numero d <> "" ->
  validar_luhn (String "0" d) = validar_luhn d.
Proof.
  intros Hne. rewrite !validar_luhn_eq, limpar_numero_cons.
  change (is_digit "0") with true. cbv iota. cbn [chars map].
  destruct (chars (limpar_numero d)) eqn:E; [now apply chars_nil in E|].
  unfold luhn_ok. change (digit_val "0") with 0%Z. now rewrite luhn_total_zero.
Qed.

Lemma X9_validar_luhn_leading_zero_witness :
  validar_luhn (String "0" "4111 1111 1111 1111")
  = validar_luhn "4111 1111 1111 1111".
Proof.
  apply (X9_validar_luhn_leading_zero "4111 1111 1111 1111").
  vm_compute. discriminate.
Defined.

Lemma digit_of_val (v : Z) :
  (0 <= v <= 9)%Z ->
  exists c, is_digit c = true /\ digit_val c = v.
Proof.
  intros Hv. exists (ascii_of_nat (48 + Z.to_nat v)).
  assert (Hn : exists n, n < 10 /\ v = Z.of_nat n)
    by (exists (Z.to_nat v); lia).
  destruct Hn as (n & Hn & ->). rewrite Nat2Z.id.
  do 10 (destruct n as [|n]; [split; vm_compute; reflexivity|]). lia.
Qed.

Lemma luhn_total_snoc (ds : list Z) (v : Z) :
  luhn_total (ds ++ [v]) = (v + sum (alt_from true (reverse ds)))%Z.
Proof.
  unfold luhn_total. rewrite reverse_snoc. cbn [alt_from negb].
  now rewrite sum_cons.
Qed.

(** X10.  Every input has exactly one check digit: among the ten digits
    there is one, and only one, that appended to the input makes
    [validar_luhn] answer [True]. *)
Theorem X10_check_digit_exists_unique (p : string) :
  exists c,
    is_digit c = true
    /\ validar_luhn (p +:+ String c "") = Ok true
    /\ forall c', is_digit c' = true ->
                  validar_luhn (p +:+ String c' "") = Ok true -> c' = c.
Proof.
  set (ds := map digit_val (chars (limpar_numero p))).
  assert (Hv : forall c, is_digit c = true ->
             validar_luhn (p +:+ String c "") = Ok (luhn_ok (ds ++ [digit_val c]))).
  { intros c Hc.
    change (p +:+ String c "") with (p +:+ String c "" +:+ "").
    rewrite validar_luhn_parts;
      [|unfold so_digitos; cbn; now rewrite Hc|discriminate].
    cbn [chars limpar_numero re_sub_class]. unfold ds.
    now rewrite app_nil_r, map_app. }
  set (T := sum (alt_from true (reverse ds))).
  destruct (digit_of_val ((- T) mod 10)) as (c & Hc & Hval);
    [pose proof (Z.mod_pos_bound (- T) 10); lia|].
  exists c. split; [exact Hc|]. split.
  - rewrite (Hv c Hc). f_equal. unfold luhn_ok.
    rewrite luhn_total_snoc, Hval. fold T. apply Z.eqb_eq.
    rewrite Z.add_comm, Zplus_mod_idemp_r. now replace (T + - T)%Z with 0%Z by lia.
  - intros c' Hc' Hok'. rewrite (Hv c' Hc') in Hok'. injection Hok' as Hok'.
    destruct (ascii_dec c' c) as [E|E]; [exact E|exfalso].
    assert (Hne : digit_val c' <> digit_val c)
      by (intros H; apply E; now apply digit_val_inj).
    pose proof (luhn_ok_single_error ds [] _ _ (is_digit_bounds _ Hc')
                  (is_digit_bounds _ Hc) Hne Hok') as Hbad.
    assert (Hgood : luhn_ok (ds ++ [digit_val c]) = true).
    { unfold luhn_ok. rewrite luhn_total_snoc, Hval. fold T. apply Z.eqb_eq.
      rewrite Z.add_comm, Zplus_mod_idemp_r.
      now replace (T + - T)%Z with 0%Z by lia. }
    congruence.
Qed.

(** The total of a list of digits, split at two neighbours. *)
Lemma luhn_total_pair (l1 l2 : list Z) (a b : Z) :
  luhn_total (l1 ++ a :: b :: l2)
  = (sum (alt_from false (reverse l2))
     + peso (Nat.odd (length l2)) b
     + peso (Nat.even (length l2)) a
     + sum (alt_from (Nat.odd (length l2)) (reverse l1)))%Z.
Proof.
  change (l1 ++ a :: b :: l2) with (l1 ++ [a] ++ b :: l2).
  rewrite app_assoc, luhn_total_middle, reverse_snoc. cbn [alt_from].
  rewrite sum_cons. unfold peso, Nat.odd.
  destruct (Nat.even (length l2)); cbn [negb]; lia.
Qed.

(** Swapping two neighbours changes the total by less than 10, and by 0
    only for equal digits and for the pair 0 and 9. *)
Lemma luhn_ok_transposition (l1 l2 : list Z) (a b : Z) :
  (0 <= a <= 9)%Z -> (0 <= b <= 9)%Z ->
  a <> b -> ~ (a = 0 /\ b = 9)%Z -> ~ (a = 9 /\ b = 0)%Z ->
  luhn_ok (l1 ++ a :: b :: l2) = true ->
  luhn_ok (l1 ++ b :: a :: l2) = false.
Proof.
  intros Ha Hb Hne H09 H90. unfold luhn_ok. rewrite !luhn_total_pair.
  set (A := sum (alt_from false (reverse l2))).
  set (R := sum (alt_from (Nat.odd (length l2)) (reverse l1))).
  intros Hok%Z.eqb_eq. apply Z.eqb_neq. intros Hok'.
  apply Z.mod_divide in Hok; [|lia]. apply Z.mod_divide in Hok'; [|lia].
  destruct Hok as [q Hq], Hok' as [q' Hq'].
  revert Hq Hq'. unfold Nat.odd, peso, dbl.
  destruct (Nat.even (length l2)); cbn [negb];
    destruct (Z.gtb_spec (a * 2) 9), (Z.gtb_spec (b * 2) 9); lia.
Qed.

(** X11.  In an input that [validar_luhn] accepts, swapping two
    neighbouring digits that differ gives an input that it rejects, unless
    the two digits are 0 and 9. *)
Theorem X11_transposition_detected (p q : string) (a b : ascii) :
  is_digit a = true -> is_digit b = true ->
  a <> b ->
  ~ (a = "0"%char /\ b = "9"%char) -> ~ (a = "9"%char /\ b = "0"%char) ->
  validar_luhn (p +:+ String a (String b "") +:+ q) = Ok true ->
  validar_luhn (p +:+ String b (String a "") +:+ q) = Ok false.
Proof.
  intros Ha Hb Hne H09 H90.
  rewrite !validar_luhn_parts
    by (try discriminate; unfold so_digitos; cbn; now rewrite ?Ha, ?Hb).
  cbn [chars app]. rewrite !map_app. cbn [map].
  intros [= Hok]. f_equal. revert Hok.
  apply luhn_ok_transposition; auto using is_digit_bounds.
  - intros E. apply Hne. now apply digit_val_inj.
  - intros [Ea Eb]. apply H09. split; apply digit_val_inj; [exact Ea|exact Eb].
  - intros [Ea Eb]. apply H90. split; apply digit_val_inj; [exact Ea|exact Eb].
Qed.

Lemma X11_transposition_detected_witness :
  validar_luhn ("55555555555" +:+ String "4" (String "5" "") +:+ "444")
  = Ok false.
Proof.
  apply (X11_transposition_detected "55555555555" "444" "5" "4");
    [ reflexivity | reflexivity | discriminate
    | intros [E _]; discriminate E | intros [E _]; discriminate E
    | vm_compute; reflexivity ].
Defined.

Lemma peso_nine (b : bool) : peso b 9 = 9%Z.
Proof. now destruct b. Qed.

(** X12.  Swapping a 0 and a 9 that stand side by side is never noticed:
    [validar_luhn] gives the same answer with ['09'] and with ['90'] at any
    place of any input. *)
Theorem X12_transposition_09_undetected (p q : string) :
  validar_luhn (p +:+ "09" +:+ q) = validar_luhn (p +:+ "90" +:+ q).
Proof.
  rewrite !validar_luhn_parts by (reflexivity || discriminate).
  cbn [chars app]. rewrite !map_app. cbn [map].
  change (digit_val "0") with 0%Z. change (digit_val "9") with 9%Z.
  unfold luhn_ok. rewrite !luhn_total_pair, !peso_zero, !peso_nine.
  do 3 f_equal. lia.
Qed.

(* ================================================================== *)
(** ** More on the formatter *)

Local Open Scope string_scope.

Lemma formatar_numero_digits (numero out : string) (b : option string) :
  formatar_numero numero b = Ok out -> limpar_numero out = limpar_numero numero.
Proof.
  destruct (marca_efetiva_total numero b) as [marca Hm].
  rewrite (formatar_numero_eq _ _ _ Hm). intros [= <-].
  destruct (_ =? _)%nat; [|apply limpar_numero_idem].
  unfold limpar_numero at 1. rewrite re_sub_class_agrupado by reflexivity.
  apply limpar_numero_idem.
Qed.

(** X13.  Formatting twice is formatting once: what [formatar_numero]
    returns is returned unchanged when it is formatted again with the same
    brand argument. *)
Theorem X13_formatar_numero_idempotent (numero out : string) (b : option string) :
  formatar_numero numero b = Ok out ->
  formatar_numero out b = Ok out.
Proof.
  intros H. pose proof (formatar_numero_digits _ _ _ H) as E.
  now rewrite <- formatar_numero_limpo, E, formatar_numero_limpo.
Qed.

Lemma X13_formatar_numero_idempotent_witness :
  formatar_numero "3782-822463-10005" None = Ok "3782-822463-10005".
Proof.
  apply (X13_formatar_numero_idempotent "378282246310005").
  vm_compute. reflexivity.
Defined.

(** The call of [main]: the digits and the brand of a verdict. *)
Lemma formatar_veredito (numero nome : string) (r : resultado) :
  validar_cartao numero = Ok r ->
  bandeira r = Some nome ->
  nome <> "" ->
  formatar_numero (numero_limpo r) (bandeira r)
  = Ok (if (comprimento r =? comprimento_esperado (Some nome))%nat
        then agrupado (Some nome) (numero_limpo r)
        else numero_limpo r)
  /\ exists ls, In (nome, ls) comprimentos_bandeiras /\ In (comprimento r) ls.
Proof.
  intros H Hb Hne.
  pose proof H as (_ & _ & Hls)%(veredito_brand_lengths _ nome); [|exact Hb].
  split; [|exact Hls]. clear Hls.
  apply validar_cartao_inv in H as (luhn & marca & _ & _ & Hr).
  assert (Hl : numero_limpo r = limpar_numero numero
               /\ comprimento r = len (limpar_numero numero)).
  { rewrite Hr. destruct (String.eqb _ ""); [now split|].
    destruct (_ || _); now split. }
  destruct Hl as [-> ->]. rewrite Hb.
  rewrite (formatar_numero_eq _ _ (Some nome)), limpar_numero_idem; [reflexivity|].
  unfold marca_efetiva. destruct nome; [contradiction|reflexivity].
Qed.

(** X14.  What [main] shows for a verdict of American Express, Diners Club,
    Mastercard or Discover is always grouped: these brands come with the
    one digit count their branch of [formatar_numero] asks for, so the
    length guard never sends them to the unformatted exit.  The groups are
    4-6-5 for American Express, 4-6-4 for Diners Club and 4-4-4-4 for the
    other two. *)
Theorem X14_formatar_veredito_grouped (numero nome : string) (r : resultado) :
  validar_cartao numero = Ok r ->
  bandeira r = Some nome ->
  In nome ["American Express"; "Diners Club"; "Mastercard"; "Discover"] ->
  formatar_numero (numero_limpo r) (bandeira r)
  = Ok (agrupado (Some nome) (numero_limpo r))
  /\ comprimento r = comprimento_esperado (Some nome).
Proof.
  intros H Hb Hnome.
  assert (Hne : nome <> "")
    by (cbn [In] in Hnome; intuition (subst; discriminate)).
  destruct (formatar_veredito _ _ _ H Hb Hne) as (-> & ls & Hin & Hl).
  assert (Hc : comprimento r = comprimento_esperado (Some nome)).
  { cbn [In] in Hnome.
    destruct Hnome as [<-|[<-|[<-|[<-|[]]]]]; so_comprimento Hin Hl;
      destruct Hl as [<-|[]]; vm_compute; reflexivity. }
  rewrite Hc, Nat.eqb_refl. now split.
Qed.

Lemma X14_formatar_veredito_grouped_witness :
  exists r,
    validar_cartao "378282246310005" = Ok r
    /\ formatar_numero (numero_limpo r) (bandeira r)
       = Ok (agrupado (Some "American Express") (numero_limpo r))
    /\ comprimento r = comprimento_esperado (Some "American Express").
Proof.
  eexists. split; [vm_compute; reflexivity|].
  apply (X14_formatar_veredito_grouped "378282246310005" "American Express");
    [vm_compute; reflexivity | reflexivity | left; reflexivity].
Defined.

(** X15.  What [main] shows for a verdict of Aura is never grouped: Aura
    comes with 19 digits only, and the branch of [formatar_numero] for the
    other brands groups 16 digits only. *)
Theorem X15_formatar_veredito_aura (numero : string) (r : resultado) :
  validar_cartao numero = Ok r ->
  bandeira r = Some "Aura" ->
  formatar_numero (numero_limpo r) (bandeira r) = Ok (numero_limpo r)
  /\ comprimento r = 19.
Proof.
  intros H Hb.
  destruct (formatar_veredito _ "Aura" _ H Hb ltac:(discriminate))
    as (-> & ls & Hin & Hl).
  assert (Hc : comprimento r = 19) by (so_comprimento Hin Hl; lia).
  rewrite Hc. now split.
Qed.

Lemma X15_formatar_veredito_aura_witness :
  exists r,
    validar_cartao "5078601870000127985" = Ok r
    /\ formatar_numero (numero_limpo r) (bandeira r) = Ok (numero_limpo r)
    /\ comprimento r = 19.
Proof.
  eexists. split; [vm_compute; reflexivity|].
  apply (X15_formatar_veredito_aura "5078601870000127985");
    [vm_compute; reflexivity | reflexivity].
Defined.

(* ================================================================== *)
(** ** Overlaps between the patterns *)

Lemma disjoint_check (x : nat) (l1 l2 : list nat) :
  forallb (fun n => negb (existsb (Nat.eqb n) l2)) l1 = true ->
  In x l1 -> In x l2 -> False.
Proof.
  rewrite forallb_forall. intros H H1 H2. apply H in H1.
  apply negb_true_iff in H1. apply not_true_iff_false in H1. apply H1.
  apply existsb_exists. exists x. split; [exact H2|apply Nat.eqb_refl].
Qed.

(** The second digit of Mastercard, 1 to 5, is none of those of Maestro. *)
Lemma classes_15_0678 (c : ascii) :
  in_class [("1", "5")%char] c = true ->
  in_class [("0", "0"); ("6", "6"); ("7", "7"); ("8", "8")]%char c = true ->
  False.
Proof.
  destruct c as [[] [] [] [] [] [] [] []]; vm_compute; intros H1 H2;
    discriminate H1 || discriminate H2.
Qed.

(** Two patterns of the table accept the same digits only when they are
    the patterns of Aura and Maestro.  Pairs whose digit counts differ are
    told apart by [alcance]; the others by their first three characters. *)
Lemma par_exclusivo (d k1 k2 : string) (p1 p2 : regex) :
  so_digitos d = true ->
  In (k1, p1) padroes_bandeiras -> In (k2, p2) padroes_bandeiras ->
  re_match p1 d = true -> re_match p2 d = true ->
  k1 = k2 \/ (k1 = "aura" /\ k2 = "maestro") \/ (k1 = "maestro" /\ k2 = "aura").
Proof.
  intros Hd H1 H2 M1 M2.
  unfold padroes_bandeiras in H1, H2. cbn [In] in H1, H2.
  repeat (destruct H1 as [H1|H1]; [injection H1 as <- <-|]); try contradiction;
  repeat (destruct H2 as [H2|H2]; [injection H2 as <- <-|]); try contradiction.
  all: try (left; reflexivity).
  all: try (right; left; split; reflexivity).
  all: try (right; right; split; reflexivity).
  all: exfalso.
  all: match goal with
       | A : re_match ?a _ = true, B : re_match ?b _ = true |- _ =>
           pose proof (fun E => re_match_comprimento a _ E Hd M1) as L1;
           pose proof (fun E => re_match_comprimento b _ E Hd M2) as L2
       end.
  all: specialize (L1 ltac:(vm_compute; reflexivity));
       specialize (L2 ltac:(vm_compute; reflexivity)).
  all: try (revert L1 L2; apply disjoint_check; vm_compute; reflexivity).
  all: clear L1 L2 Hd.
  all: destruct d as [|c1 [|c2 [|c3 t]]].
  all: unfold re_match in M1, M2; cbn -[in_class is_digit Ascii.eqb] in M1, M2.
  all: quebra.
  all: eapply classes_15_0678; eassumption.
Qed.

(** What the pattern of Aura accepts, the pattern of Maestro accepts too:
    19 digits that start with 5078 are 5, one of 0678, two digits and 15
    more. *)
Lemma aura_implica_maestro (d : string) :
  so_digitos d = true ->
  re_match Padroes.aura d = true -> re_match Padroes.maestro d = true.
Proof.
  intros Hd Ha.
  pose proof (re_match_comprimento Padroes.aura d eq_refl Hd Ha) as L.
  change (map fst (alcance Padroes.aura)) with [19] in L.
  destruct L as [L|[]]. symmetry in L. clear Hd.
  explode d L.
  unfold re_match in *. cbn -[in_class is_digit Ascii.eqb] in Ha.
  quebra. cbn -[is_digit].
  repeat match goal with
         | H : is_digit _ = true |- _ => rewrite H; clear H
         end.
  reflexivity.
Qed.

(** X16.  No number matches the patterns of two brands, with one exception:
    a number that matches the pattern of Aura matches the pattern of Maestro
    too.  On every other number the order of the table has no part in the
    answer. *)
Theorem X16_padroes_exclusive (numero : string) :
  (forall (k1 k2 : string) (p1 p2 : regex),
     In (k1, p1) padroes_bandeiras ->
     In (k2, p2) padroes_bandeiras ->
     re_match p1 (limpar_numero numero) = true ->
     re_match p2 (limpar_numero numero) = true ->
     k1 = k2 \/ (k1 = "aura" /\ k2 = "maestro")
     \/ (k1 = "maestro" /\ k2 = "aura"))
  /\ (re_match Padroes.aura (limpar_numero numero) = true ->
      re_match Padroes.maestro (limpar_numero numero) = true).
Proof.
  split.
  - intros k1 k2 p1 p2. apply par_exclusivo, limpar_numero_so_digitos.
  - apply aura_implica_maestro, limpar_numero_so_digitos.
Qed.

Lemma X16_padroes_exclusive_witness :
  re_match Padroes.maestro (limpar_numero "5078 6018 7000 0127 985") = true.
Proof.
  apply (X16_padroes_exclusive "5078 6018 7000 0127 985").
  vm_compute. reflexivity.
Defined.

(** A number that matches the pattern of Aura is not answered with
    Maestro: Aura stands before Maestro in the table. *)
Lemma aura_antes_de_maestro (d : string) :
  re_match Padroes.aura d = true ->
  primeira_bandeira padroes_bandeiras d <> Ok (Some "Maestro").
Proof.
  intros Ha. unfold padroes_bandeiras. cbn [primeira_bandeira].
  repeat match goal with
         | |- context [re_match ?p d] =>
             destruct (re_match p d) eqn:?;
               [try (vm_compute; discriminate)|try congruence]
         end.
Qed.

Lemma padrao_de_aura (p : regex) :
  In ("aura", p) padroes_bandeiras -> p = Padroes.aura.
Proof.
  unfold padroes_bandeiras. cbn [In]. intros H.
  repeat (destruct H as [H|H]; [try discriminate H; now injection H as <-|]).
  contradiction.
Qed.

(** X17.  The answer of [identificar_bandeira] does not depend on where a
    pattern stands in the table, Aura and Maestro apart: a number that
    matches the pattern of a brand is answered with the name of that
    brand, except that a number matching both Maestro and Aura is answered
    with Aura. *)
Theorem X17_identificar_bandeira_by_pattern (numero k : string) (p : regex) :
  In (k, p) padroes_bandeiras ->
  re_match p (limpar_numero numero) = true ->
  exists nome,
    dict_get nomes_bandeiras k = Ok nome
    /\ identificar_bandeira numero
       = Ok (Some (if String.eqb k "maestro"
                      && re_match Padroes.aura (limpar_numero numero)
                   then "Aura" else nome)).
Proof.
  intros Hin Hp. unfold identificar_bandeira.
  pose proof (limpar_numero_so_digitos numero) as Hd.
  revert Hd Hp. generalize (limpar_numero numero). intros d Hd Hp.
  destruct (primeira_bandeira_total d padroes_bandeiras) as [o Ho].
  { repeat (constructor; [eexists; reflexivity|]). constructor. }
  destruct o as [nome'|].
  - pose proof Ho as (k' & p' & Hin' & Hp' & Hk')%primeira_bandeira_some.
    destruct (par_exclusivo d k' k p' p Hd Hin' Hin Hp' Hp)
      as [->|[[-> ->]|[-> ->]]].
    + exists nome'. split; [exact Hk'|]. rewrite Ho.
      destruct (String.eqb_spec k "maestro") as [->|]; [|reflexivity].
      destruct (re_match Padroes.aura d) eqn:Ha; [|reflexivity].
      vm_compute in Hk'. injection Hk' as <-.
      now apply aura_antes_de_maestro in Ha.
    + exists "Maestro". split; [reflexivity|]. rewrite Ho.
      apply padrao_de_aura in Hin'. subst p'. rewrite Hp'.
      vm_compute in Hk'. injection Hk' as <-. reflexivity.
    + apply padrao_de_aura in Hin. subst p.
      vm_compute in Hk'. injection Hk' as <-.
      now apply aura_antes_de_maestro in Hp.
  - apply primeira_bandeira_none in Ho. rewrite Forall_forall in Ho.
    apply list_elem_of_In in Hin. specialize (Ho _ Hin). cbn [snd] in Ho.
    congruence.
Qed.

Lemma X17_identificar_bandeira_by_pattern_witness :
  exists nome,
    dict_get nomes_bandeiras "discover" = Ok nome
    /\ identificar_bandeira "6011 1111 1111 1117"
       = Ok (Some (if String.eqb "discover" "maestro"
                      && re_match Padroes.aura (limpar_numero "6011 1111 1111 1117")
                   then "Aura" else nome)).
Proof.
  apply (X17_identificar_bandeira_by_pattern "6011 1111 1111 1117" "discover"
           Padroes.discover);
    [do 6 right; left; reflexivity | vm_compute; reflexivity].
Defined.

(** X18.  The table of digit counts is exact: for every brand and every
    digit count listed for it there is a string of that many digits that
    [identificar_bandeira] answers with that brand. *)
Theorem X18_comprimentos_attained (nome : string) (ls : list nat) (n : nat) :
  In (nome, ls) comprimentos_bandeiras ->
  In n ls ->
  exists numero,
    so_digitos numero = true
    /\ len numero = n
    /\ identificar_bandeira numero = Ok (Some nome).
Proof.
  unfold comprimentos_bandeiras. cbn [In]. intros Hin Hn.
  repeat (destruct Hin as [Hin|Hin]; [injection Hin as <- <-; cbn [In] in Hn|]);
    try contradiction;
    repeat (destruct Hn as [<-|Hn]); try contradiction.
  - exists "4000000000000". now vm_compute.
  - exists "4000000000000000". now vm_compute.
  - exists "5100000000000000". now vm_compute.
  - exists "340000000000000". now vm_compute.
  - exists "1652". now vm_compute.
  - exists "65005". now vm_compute.
  - exists "401178". now vm_compute.
  - exists "6062820000000000". now vm_compute.
  - exists "3841000000000000000". now vm_compute.
  - exists "30000000000000". now vm_compute.
  - exists "6011000000000000". now vm_compute.
  - exists "213100000000000". now vm_compute.
  - exists "3500000000000000". now vm_compute.
  - exists "5078000000000000000". now vm_compute.
  - exists "630400000000". now vm_compute.
  - exists "6304000000000". now vm_compute.
  - exists "63040000000000". now vm_compute.
  - exists "630400000000000". now vm_compute.
  - exists "6304000000000000". now vm_compute.
  - exists "63040000000000000". now vm_compute.
  - exists "630400000000000000". now vm_compute.
  - exists "6304000000000000000". now vm_compute.
Qed.

Lemma X18_comprimentos_attained_witness :
  exists numero,
    so_digitos numero = true
    /\ len numero = 19
    /\ identificar_bandeira numero = Ok (Some "Hipercard").
Proof.
  apply (X18_comprimentos_attained "Hipercard" [16; 19] 19);
    [do 4 right; left; reflexivity | right; left; reflexivity].
Defined.
